(** * Multi-agent supervisor: orchestration graph and delegate-calling tools

    A shallow embedding of
      - [agents/supervisor/tools.py]   (the two delegate-calling tools),
      - [agents/supervisor/graph/graph.py] (the supervisor graph and [run]),
      - [agents/supervisor/agent.py]   (the A2A executor entry point),
      - [common/llm.py], [config/config.py] (model handle and addresses).

    Python exceptions are an explicit error monad; the network, the chat
    model and the prebuilt tool node are oracles collected in one
    environment record, so that every statement below quantifies over all
    of their behaviours. *)

From Stdlib Require Import String List ZArith Bool Lia DecimalString.
Import ListNotations.
Local Open Scope string_scope.
Local Open Scope Z_scope.

(* ===================================================================== *)
(** ** Python exceptions and the error monad *)
(* ===================================================================== *)

Module Py.

(** The exception classes that the modelled code can meet.  The last three
    derive from [BaseException] only, so [except Exception] lets them pass. *)
Inductive exn : Type :=
| ConnectError                      (* httpx: connection failure *)
| TimeoutException                  (* httpx: the 30 s timeout elapsed *)
| HTTPStatusError (status : Z)      (* httpx: raise_for_status *)
| JSONDecodeError                   (* response.json() on a non-JSON body *)
| TypeError
| KeyError
| IndexError
| AttributeError
| ValueError
| OtherException (name : string)    (* any further subclass of Exception *)
| CancelledError
| KeyboardInterrupt
| SystemExit.

(** [isinstance(e, Exception)]. *)
Definition is_Exception (e : exn) : bool :=
  match e with
  | CancelledError | KeyboardInterrupt | SystemExit => false
  | _ => true
  end.

(** Result of running a piece of Python: a value, or a raised exception. *)
Inductive outcome (A : Type) : Type :=
| Return (a : A)
| Raise (e : exn).
Arguments Return {A} a.
Arguments Raise {A} e.

Definition bind {A B : Type} (c : outcome A) (k : A -> outcome B) : outcome B :=
  match c with
  | Return a => k a
  | Raise e => Raise e
  end.

(** [try: body  except Exception as e: handler e]. *)
Definition try_except_Exception {A : Type}
    (body : outcome A) (handler : exn -> outcome A) : outcome A :=
  match body with
  | Return a => Return a
  | Raise e => if is_Exception e then handler e else Raise e
  end.

(* --------------------------------------------------------------------- *)
(** *** Python values as produced by [response.json()] *)

#[local] Set Warnings "-register-all".
Inductive pyval : Type :=
| PNone
| PBool (b : bool)
| PInt (z : Z)
| PFloat (literal : string)
| PStr (s : string)
| PList (items : list pyval)
| PDict (entries : list (string * pyval)).   (* JSON objects: string keys *)

(** Dictionary lookup; an entry list stands for the dict it builds, the
    first binding of a key being the live one. *)
Fixpoint dict_lookup (k : string) (entries : list (string * pyval)) : option pyval :=
  match entries with
  | [] => None
  | (k', v) :: rest => if String.eqb k' k then Some v else dict_lookup k rest
  end.

Definition dict_has (k : string) (entries : list (string * pyval)) : bool :=
  match dict_lookup k entries with Some _ => true | None => false end.

(** [key in container] for a string [key]. *)
Definition py_in (key : string) (container : pyval) : outcome bool :=
  match container with
  | PDict entries => Return (dict_has key entries)
  | PList items =>
      Return (existsb (fun v => match v with
                                | PStr s => String.eqb s key
                                | _ => false
                                end) items)
  | PStr s =>
      Return (match String.index 0 key s with Some _ => true | None => false end)
  | PNone | PBool _ | PInt _ | PFloat _ => Raise TypeError
  end.

(** Position [i] of a sequence of length [len], Python style (negative
    indices count from the end). *)
Definition seq_index (i : Z) (len : nat) : option nat :=
  let j := if i <? 0 then Z.of_nat len + i else i in
  if (0 <=? j) && (j <? Z.of_nat len) then Some (Z.to_nat j) else None.

(** [container[key]]. *)
Definition py_getitem (container key : pyval) : outcome pyval :=
  match container, key with
  | PDict entries, PStr k =>
      match dict_lookup k entries with
      | Some v => Return v
      | None => Raise KeyError
      end
  | PDict _, _ => Raise KeyError
  | PList items, PInt i =>
      match seq_index i (List.length items) with
      | Some n => match nth_error items n with
                  | Some v => Return v
                  | None => Raise IndexError
                  end
      | None => Raise IndexError
      end
  | PList _, _ => Raise TypeError
  | PStr s, PInt i =>
      match seq_index i (String.length s) with
      | Some n => match String.get n s with
                  | Some c => Return (PStr (String c EmptyString))
                  | None => Raise IndexError
                  end
      | None => Raise IndexError
      end
  | PStr _, _ => Raise TypeError
  | _, _ => Raise TypeError
  end.

(** [obj.get(key, default)]: only dicts have the method. *)
Definition py_get (obj : pyval) (key : string) (default : pyval) : outcome pyval :=
  match obj with
  | PDict entries =>
      match dict_lookup key entries with
      | Some v => Return v
      | None => Return default
      end
  | _ => Raise AttributeError
  end.

(** [seq[-1]] on a Python list held as a Rocq list. *)
Definition last_item {A : Type} (l : list A) : outcome A :=
  match rev l with
  | x :: _ => Return x
  | [] => Raise IndexError
  end.

End Py.
Import Py.

Notation "x <- c ;; k" := (bind c (fun x => k))
  (at level 61, c at next level, right associativity).
Notation "c ;;; k" := (bind c (fun _ => k))
  (at level 61, right associativity).

(* ===================================================================== *)
(** ** httpx responses *)
(* ===================================================================== *)

Module Httpx.

(** What the code looks at in an [httpx.Response]: the status line and the
    decoded body ([None] when the body is not JSON). *)
Record Response : Type := {
  status_code : Z;
  body : option pyval
}.

(** [response.raise_for_status()]: anything outside 2xx raises. *)
Definition raise_for_status (r : Response) : outcome unit :=
  if (200 <=? status_code r) && (status_code r <=? 299)
  then Return tt
  else Raise (HTTPStatusError (status_code r)).

(** [response.json()]. *)
Definition json (r : Response) : outcome pyval :=
  match body r with
  | Some v => Return v
  | None => Raise JSONDecodeError
  end.

End Httpx.

(* ===================================================================== *)
(** ** a2a.types: the request objects built by the tools *)
(* ===================================================================== *)

Module A2A.

Inductive Role : Type := agent | user.

Definition Role_value (r : Role) : string :=
  match r with agent => "agent" | user => "user" end.

Record TextPart : Type := { text : string }.
Record Part : Type := { root : TextPart }.
Record Message : Type := {
  message_id : string;
  role : Role;
  parts : list Part
}.
Record MessageSendParams : Type := { message : Message }.
Record SendMessageRequest : Type := {
  id : string;
  params : MessageSendParams
}.

(** The fields that the a2a models fill in by themselves, level by level,
    when a request is dumped.  The library decides them, not this
    repository, so they come from the environment. *)
Record Defaults : Type := {
  request_defaults : list (string * pyval);
  params_defaults : list (string * pyval);
  message_defaults : list (string * pyval);
  part_defaults : list (string * pyval)
}.


(** [request_data.model_dump()]: at each level the fields that the caller
    set, then the defaulted ones. *)
Definition dump_part (d : Defaults) (p : Part) : pyval :=
  PDict (("text", PStr (text (root p))) :: part_defaults d).

Definition dump_message (d : Defaults) (m : Message) : pyval :=
  PDict (("message_id", PStr (message_id m))
         :: ("role", PStr (Role_value (role m)))
         :: ("parts", PList (map (dump_part d) (parts m)))
         :: message_defaults d).

Definition model_dump (d : Defaults) (r : SendMessageRequest) : pyval :=
  PDict (("id", PStr (id r))
         :: ("params", PDict (("message", dump_message d (message (params r)))
                              :: params_defaults d))
         :: request_defaults d).

End A2A.

(* ===================================================================== *)
(** ** langchain_core.messages *)
(* ===================================================================== *)

Module Messages.

Inductive message_type : Type := human | ai | system | tool.

Record ToolCall : Type := {
  name : string;
  args : list (string * pyval);
  call_id : string
}.

(** [tool_calls] is an attribute of AI messages only: [None] stands for a
    message class without it ([hasattr] fails). *)
Record BaseMessage : Type := {
  type : message_type;
  content : string;
  tool_calls : option (list ToolCall)
}.

Definition HumanMessage (c : string) : BaseMessage :=
  {| type := human; content := c; tool_calls := None |}.
Definition SystemMessage (c : string) : BaseMessage :=
  {| type := system; content := c; tool_calls := None |}.
Definition ToolMessage (c : string) : BaseMessage :=
  {| type := tool; content := c; tool_calls := None |}.
(** [AIMessage(content=c)]: [tool_calls] defaults to the empty list. *)
Definition AIMessage (c : string) : BaseMessage :=
  {| type := ai; content := c; tool_calls := Some [] |}.

(** A message given as a plain dict, as the entry points do. *)
Record MessageDict : Type := {
  d_role : option string;
  d_content : string
}.

(** Coercion of a dict to a message object when it enters the
    [MessagesState] channel: the role key selects the class and a dict
    without one is rejected. *)
Definition convert_to_message (d : MessageDict) : outcome BaseMessage :=
  match d_role d with
  | None => Raise ValueError
  | Some r =>
      if String.eqb r "user" || String.eqb r "human" then Return (HumanMessage (d_content d))
      else if String.eqb r "assistant" || String.eqb r "ai" then Return (AIMessage (d_content d))
      else if String.eqb r "system" then Return (SystemMessage (d_content d))
      else Raise ValueError
  end.

Fixpoint convert_to_messages (ds : list MessageDict) : outcome (list BaseMessage) :=
  match ds with
  | [] => Return []
  | d :: rest =>
      m <- convert_to_message d ;;
      ms <- convert_to_messages rest ;;
      Return (m :: ms)
  end.

(** The state of the graph: [MessagesState], a dict with the one key
    ["messages"]. *)
Definition MessagesState : Type := list BaseMessage.

(** The channel's reducer; the messages a node returns are new objects, so
    they are appended. *)
Definition add_messages (left right : list BaseMessage) : MessagesState :=
  (left ++ right)%list.

End Messages.

Import Httpx A2A Messages.

(* ===================================================================== *)
(** ** The environment of the supervisor process *)
(* ===================================================================== *)

(** [common/llm.py]: what the code uses of a chat model handle. *)
Record ChatModel : Type := {
  invoke : list BaseMessage -> outcome BaseMessage
}.

(** A [@tool]-decorated coroutine. *)
Record Tool : Type := {
  tool_name : string;
  coroutine : string -> outcome pyval
}.

(** Everything the supervisor code takes from outside itself: the two
    addresses and the provider name of [config/config.py] (read from the
    process environment), the defaulted fields of the a2a models, the HTTP
    client, the model constructor, and the prebuilt tool node of langgraph. *)
Record Env : Type := {
  CISCO_INTERSIGHT_AGENT_URL : string;
  SERVICE_CATALOG_AGENT_URL : string;
  LLM_PROVIDER : string;
  a2a_defaults : A2A.Defaults;
  (** [await client.post(url, json=payload, headers=..., timeout=30.0)] *)
  post : string -> pyval -> outcome Response;
  (** [ChatOpenAI(api_key=..., temperature=0, model="gpt-3.5-turbo")] *)
  ChatOpenAI : ChatModel;
  (** [llm.bind_tools(tools)]: a new handle; the receiver is unchanged. *)
  bind_tools : ChatModel -> list Tool -> ChatModel;
  (** [ToolNode(tools)] applied to a state: the messages it adds. *)
  ToolNode : list Tool -> MessagesState -> outcome (list BaseMessage)
}.

(* ===================================================================== *)
(** ** agents/supervisor/tools.py *)
(* ===================================================================== *)

Definition cisco_invalid_response : string :=
  "Cisco Intersight Agent did not return a valid response.".

Definition service_catalog_invalid_response : string :=
  "Service Catalog Agent did not return a valid response.".

Definition call_cisco_agent (E : Env) (message : string) : outcome pyval :=
  try_except_Exception
    (let request_data :=
       {| id := "cisco_intersight_tool_call";
          params := {| A2A.message :=
            {| message_id := "user_message_1";
               role := user;
               parts := [ {| root := {| text := message |} |} ] |} |} |} in
     response <- post E (CISCO_INTERSIGHT_AGENT_URL E ++ "/v1/messages")
                        (model_dump (a2a_defaults E) request_data) ;;
     raise_for_status response ;;;
     response_data <- json response ;;
     has_message <- py_in "message" response_data ;;
     has_parts <- (if has_message
                   then m <- py_getitem response_data (PStr "message") ;;
                        py_in "parts" m
                   else Return false) ;;
     if has_parts
     then m <- py_getitem response_data (PStr "message") ;;
          ps <- py_getitem m (PStr "parts") ;;
          first <- py_getitem ps (PInt 0) ;;
          py_get first "text" (PStr "")
     else Return (PStr cisco_invalid_response))
    (fun _ => Return (PStr "")).

Definition call_service_catalog_agent (E : Env) (message : string) : outcome pyval :=
  try_except_Exception
    (let request_data :=
       {| id := "service_catalog_tool_call";
          params := {| A2A.message :=
            {| message_id := "user_message_1";
               role := user;
               parts := [ {| root := {| text := message |} |} ] |} |} |} in
     response <- post E (SERVICE_CATALOG_AGENT_URL E ++ "/v1/messages")
                        (model_dump (a2a_defaults E) request_data) ;;
     raise_for_status response ;;;
     response_data <- json response ;;
     has_message <- py_in "message" response_data ;;
     has_parts <- (if has_message
                   then m <- py_getitem response_data (PStr "message") ;;
                        py_in "parts" m
                   else Return false) ;;
     if has_parts
     then m <- py_getitem response_data (PStr "message") ;;
          ps <- py_getitem m (PStr "parts") ;;
          first <- py_getitem ps (PInt 0) ;;
          py_get first "text" (PStr "")
     else Return (PStr service_catalog_invalid_response))
    (fun _ => Return (PStr "")).

(** The statements that both tools run on the decoded body, with the
    tool's own explanatory text. *)
Definition read_reply (invalid_response : string) (response_data : pyval)
    : outcome pyval :=
  has_message <- py_in "message" response_data ;;
  has_parts <- (if has_message
                then m <- py_getitem response_data (PStr "message") ;;
                     py_in "parts" m
                else Return false) ;;
  if has_parts
  then m <- py_getitem response_data (PStr "message") ;;
       ps <- py_getitem m (PStr "parts") ;;
       first <- py_getitem ps (PInt 0) ;;
       py_get first "text" (PStr "")
  else Return (PStr invalid_response).

(* ===================================================================== *)
(** ** common/llm.py *)
(* ===================================================================== *)

Definition get_llm (E : Env) : outcome ChatModel :=
  if String.eqb (LLM_PROVIDER E) "openai"
  then Return (ChatOpenAI E)
  else Raise ValueError.

(* ===================================================================== *)
(** ** agents/supervisor/graph/graph.py *)
(* ===================================================================== *)

Module SupervisorGraph.

(** The instance attributes; [self.tools] and [self.graph] are the same for
    every instance and are the definitions [tools] and [ainvoke] below. *)
Record t : Type := { llm : option ChatModel }.

Definition tools (E : Env) : list Tool :=
  [ {| tool_name := "call_cisco_agent"; coroutine := call_cisco_agent E |};
    {| tool_name := "call_service_catalog_agent";
       coroutine := call_service_catalog_agent E |} ].

(** [__init__]: [self.llm = get_llm() or None]. *)
Definition __init__ (E : Env) : outcome t :=
  l <- get_llm E ;;
  Return {| llm := Some l |}.

(** The text of the system message up to the [{message}] placeholder, which
    ends the template. *)
Definition routing_instructions : string :=
"You are a Supervisor Agent that coordinates between two agents:

Cisco Intersight : Specializes in greetings, welcomes, related to Cisco products and services
Service Catalog :  Specializes in greetings, welcomes, related to Service Catalog products and services

Based on the user's message, decide which agent to call:
- If the message seems like a greeting, starting a conversation, or saying hello → call call_cisco_agent
- If the message seems like saying goodbye, ending a conversation, or farewell → call call_service_catalog_agent

If you're unsure, default to Cisco Intersight.

Analyze this message and call the appropriate agent: ".

(** [_supervisor_node]: returns the (possibly updated) instance and the
    state update [{"messages": [...]}]. *)
Definition _supervisor_node (E : Env) (self : t) (state : MessagesState)
    : outcome (t * list BaseMessage) :=
  l <- match llm self with
       | Some l => Return l
       | None =>
           l <- get_llm E ;;
           (* binding tools: the bound handle is dropped *)
           let _ := bind_tools E l (tools E) in
           Return l
       end ;;
  let user_message :=
    match rev state with
    | m :: _ => content m
    | [] => ""
    end in
  let system_message := SystemMessage (routing_instructions ++ user_message) in
  let messages := system_message :: state in
  response <- invoke l messages ;;
  Return ({| llm := Some l |}, [AIMessage (content response)]).

(** [__should_continue]: the condition of the edge out of ["supervisor"]. *)
Definition __should_continue (state : MessagesState) : outcome string :=
  last_message <- last_item state ;;
  match tool_calls last_message with
  | Some (_ :: _) => Return "tools"
  | _ => Return "end"
  end.

(** The nodes of the compiled graph, [END] included. *)
Inductive node : Type := supervisor | tools_node | END.

(** The path map of the conditional edge out of ["supervisor"]. *)
Definition path_map (key : string) : outcome node :=
  if String.eqb key "tools" then Return tools_node
  else if String.eqb key "end" then Return END
  else Raise KeyError.

(** A point of a run: the node about to execute, the instance, the state. *)
Record config : Type := {
  at_node : node;
  self_ : t;
  messages : MessagesState
}.

(** One step of the compiled graph of [_build_graph]: run the node, merge
    its update into the state, follow the outgoing edge. *)
Definition step (E : Env) (c : config) : outcome config :=
  match at_node c with
  | supervisor =>
      r <- _supervisor_node E (self_ c) (messages c) ;;
      let state' := add_messages (messages c) (snd r) in
      key <- __should_continue state' ;;
      next <- path_map key ;;
      Return {| at_node := next; self_ := fst r; messages := state' |}
  | tools_node =>
      update <- ToolNode E (tools E) (messages c) ;;
      Return {| at_node := supervisor; self_ := self_ c;
                messages := add_messages (messages c) update |}
  | END => Return c
  end.

(** The executor: steps until [END].  The source passes no bound of its own
    on the number of steps, and the limit that the graph library applies by
    default is not modelled: [fuel] only makes the recursion structural, and
    [None] means that it ran out before the graph ended.  From the entry
    point one unit is always enough ([loop_supervisor] below). *)
Fixpoint loop (E : Env) (fuel : nat) (c : config) : option (outcome config) :=
  match at_node c with
  | END => Some (Return c)
  | _ =>
      match fuel with
      | O => None
      | S n =>
          match step E c with
          | Return c' => loop E n c'
          | Raise e => Some (Raise e)
          end
      end
  end.

(** [self.graph.ainvoke(input)]: the input messages enter the channel, the
    graph starts at its entry point. *)
Definition ainvoke (E : Env) (fuel : nat) (self : t) (input : list MessageDict)
    : option (outcome MessagesState) :=
  match convert_to_messages input with
  | Raise e => Some (Raise e)
  | Return ms =>
      match loop E fuel {| at_node := supervisor; self_ := self;
                           messages := add_messages [] ms |} with
      | None => None
      | Some r => Some (c <- r ;; Return (messages c))
      end
  end.

Definition error_reply : string :=
  "An error occurred while processing your request.".

(** The initial state that [run] builds. *)
Definition run_initial_state (message : string) : list MessageDict :=
  [ {| d_role := Some "user"; d_content := message |} ].

Definition run (E : Env) (fuel : nat) (self : t) (message : string)
    : option (outcome string) :=
  let initial_state := run_initial_state message in
  match ainvoke E fuel self initial_state with
  | None => None
  | Some invoked =>
      Some (try_except_Exception
              (result <- invoked ;;
               match result with
               | [] => Return "No response from Supervisor Agent."
               | _ :: _ => m <- last_item result ;; Return (content m)
               end)
              (fun _ => Return error_reply))
  end.

End SupervisorGraph.

(* ===================================================================== *)
(** ** agents/supervisor/agent.py *)
(* ===================================================================== *)

Module SupervisorAgent.

Record t : Type := { agent : SupervisorGraph.t }.

(** The initial state that [execute] builds. *)
Definition execute_initial_state (user_input : string) : list MessageDict :=
  [ {| d_role := None; d_content := user_input |} ].

(** [execute]: the value is the event put on the queue. *)
Definition execute (E : Env) (fuel : nat) (self : t) (user_input : string)
    : option (outcome MessagesState) :=
  match SupervisorGraph.ainvoke E fuel (agent self)
          (execute_initial_state user_input) with
  | None => None
  | Some invoked => Some (response <- invoked ;; Return response)
  end.

End SupervisorAgent.

(* ===================================================================== *)
(** ** Vocabulary of the specification *)
(* ===================================================================== *)

Module Spec.

(** The wire request of the delegate endpoint, written after the
    specification: [{id, params: {message: {message_id, role: "user",
    parts: [{text}]}}}]. *)
Definition request_envelope (request_id message_id text : string) : pyval :=
  PDict [("id", PStr request_id);
         ("params", PDict [("message", PDict [
            ("message_id", PStr message_id);
            ("role", PStr "user");
            ("parts", PList [PDict [("text", PStr text)]])])])].

(** The success response of the delegate endpoint:
    [{message: {parts: [{text}, ...]}}]. *)
Definition success_response (text : string) (more : list pyval) : pyval :=
  PDict [("message", PDict [("parts", PList (PDict [("text", PStr text)] :: more))])].

(** The response body is a JSON object with a ["message"] object that has a
    ["parts"] key. *)
Definition has_message_parts (data : pyval) : bool :=
  match data with
  | PDict entries =>
      match dict_lookup "message" entries with
      | Some (PDict inner) => dict_has "parts" inner
      | _ => false
      end
  | _ => false
  end.

Definition is_2xx (status : Z) : bool := (200 <=? status) && (status <=? 299).

(** The failed outcomes of the network call that the specification lists:
    connection failure, timeout, a status outside 2xx, a body that is not
    JSON or lacks the [message]/[parts] keys. *)
Definition failed_call (o : outcome Response) : bool :=
  match o with
  | Raise ConnectError | Raise TimeoutException => true
  | Raise _ => false
  | Return r =>
      if is_2xx (status_code r)
      then match body r with
           | Some data => negb (has_message_parts data)
           | None => true
           end
      else true
  end.

(** The address and the request of each tool's network call. *)
Definition cisco_url (E : Env) : string :=
  CISCO_INTERSIGHT_AGENT_URL E ++ "/v1/messages".
Definition service_catalog_url (E : Env) : string :=
  SERVICE_CATALOG_AGENT_URL E ++ "/v1/messages".
Definition cisco_request (E : Env) (m : string) : pyval :=
  model_dump (a2a_defaults E)
    {| id := "cisco_intersight_tool_call";
       params := {| A2A.message :=
         {| message_id := "user_message_1";
            role := user;
            parts := [ {| root := {| text := m |} |} ] |} |} |}.
Definition service_catalog_request (E : Env) (m : string) : pyval :=
  model_dump (a2a_defaults E)
    {| id := "service_catalog_tool_call";
       params := {| A2A.message :=
         {| message_id := "user_message_1";
            role := user;
            parts := [ {| root := {| text := m |} |} ] |} |} |}.

(** What a tool makes of a given outcome of its network call. *)
Definition tool_result (invalid_response : string) (o : outcome Response)
    : outcome pyval :=
  try_except_Exception
    (response <- o ;;
     raise_for_status response ;;;
     response_data <- json response ;;
     read_reply invalid_response response_data)
    (fun _ => Return (PStr "")).

(** A part without a ["text"] key. *)
Definition lacks_text (part : pyval) : bool :=
  match part with
  | PDict fields => negb (dict_has "text" fields)
  | _ => true
  end.

(** A delegate that answers every well-formed request with the text it was
    sent, and anything else with status 422. *)
Definition echo_delegate (url : string) (request : pyval) : outcome Response :=
  match (p <- py_getitem request (PStr "params") ;;
         m <- py_getitem p (PStr "message") ;;
         ps <- py_getitem m (PStr "parts") ;;
         first <- py_getitem ps (PInt 0) ;;
         py_getitem first (PStr "text")) with
  | Return (PStr t) =>
      Return {| status_code := 200; body := Some (success_response t []) |}
  | _ => Return {| status_code := 422; body := None |}
  end.

(** The model handle that a decision uses: the instance's, or a fresh one. *)
Definition model_in_use (E : Env) (self : SupervisorGraph.t) : outcome ChatModel :=
  match SupervisorGraph.llm self with
  | Some l => Return l
  | None => get_llm E
  end.

(** The content of the most recent message, empty for an empty state. *)
Definition last_content (state : MessagesState) : string :=
  match rev state with
  | m :: _ => content m
  | [] => ""
  end.

(** What a decision hands to the completion capability. *)
Definition decision_input (state : MessagesState) : list BaseMessage :=
  SystemMessage (SupervisorGraph.routing_instructions ++ last_content state) :: state.

Definition is_tool_result (m : BaseMessage) : bool :=
  match type m with tool => true | _ => false end.

(** Number of tool results in a state: the dispatches completed so far. *)
Definition dispatches (state : MessagesState) : nat :=
  List.length (filter is_tool_result state).

(** The configurations that a run started on [c0] passes through. *)
Inductive reachable (E : Env) (c0 : SupervisorGraph.config)
    : SupervisorGraph.config -> Prop :=
| reach_start : reachable E c0 c0
| reach_step c c' :
    reachable E c0 c ->
    SupervisorGraph.at_node c <> SupervisorGraph.END ->
    SupervisorGraph.step E c = Return c' ->
    reachable E c0 c'.



End Spec.

(* ===================================================================== *)
(** ** Sample environments *)
(* ===================================================================== *)

Module Sample.

(** A completion that asks for the tool [tool] with the arguments [a] and
    gives no text. *)
Definition requests_tool (tool : string) (a : list (string * pyval)) : ChatModel :=
  {| invoke := fun _ =>
       Return {| type := ai; content := "";
                 tool_calls := Some [ {| name := tool; args := a;
                                         call_id := "call_1" |} ] |} |}.


(** A completion that answers with a fixed text. *)
Definition answers (reply : string) : ChatModel :=
  {| invoke := fun _ => Return (AIMessage reply) |}.

(** A completion capability that is down. *)
Definition unreachable_model : ChatModel :=
  {| invoke := fun _ => Raise (OtherException "APIConnectionError") |}.

(** A tool node that would answer every pending call with one result. *)
Definition one_result_per_call (ts : list Tool) (state : MessagesState)
    : outcome (list BaseMessage) :=
  m <- last_item state ;;
  Return (map (fun tc => ToolMessage (name tc))
              (match tool_calls m with Some tcs => tcs | None => [] end)).

(** Defaulted fields such as a JSON-RPC style library adds to a request. *)
Definition library_defaults : A2A.Defaults :=
  {| request_defaults := [("jsonrpc", PStr "2.0"); ("method", PStr "message/send")];
     params_defaults := [("configuration", PNone); ("metadata", PNone)];
     message_defaults := [("kind", PStr "message"); ("metadata", PNone)];
     part_defaults := [("kind", PStr "text"); ("metadata", PNone)] |}.

Definition env (net : string -> pyval -> outcome Response) (model : ChatModel) : Env :=
  {| CISCO_INTERSIGHT_AGENT_URL := "http://localhost:8002";
     SERVICE_CATALOG_AGENT_URL := "http://localhost:8001";
     LLM_PROVIDER := "openai";
     a2a_defaults := library_defaults;
     post := net;
     ChatOpenAI := model;
     bind_tools := fun l _ => l;
     ToolNode := one_result_per_call |}.


Definition server_error (url : string) (request : pyval) : outcome Response :=
  Return {| status_code := 500; body := None |}.

Definition replies (data : pyval) (url : string) (request : pyval) : outcome Response :=
  Return {| status_code := 200; body := Some data |}.

Definition graph (model : ChatModel) : SupervisorGraph.t :=
  {| SupervisorGraph.llm := Some model |}.

(** An instance whose handle is still to be made. *)
Definition bare_graph : SupervisorGraph.t :=
  {| SupervisorGraph.llm := None |}.

(** The same process started with another provider name. *)
Definition with_provider (provider : string) (E : Env) : Env :=
  {| CISCO_INTERSIGHT_AGENT_URL := CISCO_INTERSIGHT_AGENT_URL E;
     SERVICE_CATALOG_AGENT_URL := SERVICE_CATALOG_AGENT_URL E;
     LLM_PROVIDER := provider;
     a2a_defaults := a2a_defaults E;
     post := post E;
     ChatOpenAI := ChatOpenAI E;
     bind_tools := bind_tools E;
     ToolNode := ToolNode E |}.


(** A completion call interrupted from the keyboard. *)
Definition interrupted_model : ChatModel :=
  {| invoke := fun _ => Raise KeyboardInterrupt |}.

(** A delegation request carried by a message. *)
Definition delegating (tool : string) (a : list (string * pyval)) : BaseMessage :=
  {| type := ai; content := "";
     tool_calls := Some [ {| name := tool; args := a; call_id := "call_1" |} ] |}.

End Sample.

Import SupervisorGraph.

(* ===================================================================== *)
(** ** client/cli.py *)
(* ===================================================================== *)

Module Client.


(** [str(n)] for an integer. *)
Definition string_of_Z (z : Z) : string :=
  NilZero.string_of_int (Z.to_int z).

(** [s.title()] on ASCII text: a letter is upper case when the character
    before it is not a letter, lower case otherwise; other characters stay. *)
Definition is_upper (c : Ascii.ascii) : bool :=
  (65 <=? Ascii.nat_of_ascii c)%nat && (Ascii.nat_of_ascii c <=? 90)%nat.
Definition is_lower (c : Ascii.ascii) : bool :=
  (97 <=? Ascii.nat_of_ascii c)%nat && (Ascii.nat_of_ascii c <=? 122)%nat.
Definition to_upper (c : Ascii.ascii) : Ascii.ascii :=
  if is_lower c then Ascii.ascii_of_nat (Ascii.nat_of_ascii c - 32) else c.
Definition to_lower (c : Ascii.ascii) : Ascii.ascii :=
  if is_upper c then Ascii.ascii_of_nat (Ascii.nat_of_ascii c + 32) else c.

Fixpoint title_from (after_letter : bool) (s : string) : string :=
  match s with
  | EmptyString => EmptyString
  | String c rest =>
      if is_upper c || is_lower c
      then String (if after_letter then to_lower c else to_upper c)
                  (title_from true rest)
      else String c (title_from false rest)
  end.

Definition title (s : string) : string := title_from false s.

(** [repr] of a list of strings that hold no quote or backslash. *)
Fixpoint repr_items (items : list string) : string :=
  match items with
  | [] => ""
  | [x] => "'" ++ x ++ "'"
  | x :: rest => "'" ++ x ++ "', " ++ repr_items rest
  end.
Definition repr_list (items : list string) : string :=
  "[" ++ repr_items items ++ "]".

(** Truth value of a Python value; a float is held by its [repr], so the
    false ones are [0.0] and [-0.0]. *)
Definition py_truthy (v : pyval) : bool :=
  match v with
  | PNone => false
  | PBool b => b
  | PInt z => negb (z =? 0)
  | PFloat literal => negb (String.eqb literal "0.0" || String.eqb literal "-0.0")
  | PStr s => negb (String.eqb s "")
  | PList items => match items with [] => false | _ :: _ => true end
  | PDict entries => match entries with [] => false | _ :: _ => true end
  end.

(** [len(v)]; for text it counts bytes, which is zero exactly when the
    number of characters is. *)
Definition py_len (v : pyval) : outcome Z :=
  match v with
  | PStr s => Return (Z.of_nat (String.length s))
  | PList items => Return (Z.of_nat (List.length items))
  | PDict entries => Return (Z.of_nat (List.length entries))
  | PNone | PBool _ | PInt _ | PFloat _ => Raise TypeError
  end.

(** What the client takes from outside: the process environment with its
    HTTP [post], the HTTP [get] of the status check, the texts that Python
    gives for an exception and for a response, the text of a value inside
    an f-string, and [int(choice)] ([None] when it raises [ValueError]). *)
Record World : Type := {
  env : Env;
  get : string -> outcome Response;
  str_exn : exn -> string;
  response_text : Response -> string;
  raised_response_text : exn -> string;
  format_other : pyval -> string;
  py_int : string -> option Z
}.


(** A value, or a raised exception with its [str(e)]. *)
Inductive result (A : Type) : Type :=
| Ok (a : A)
| Fail (e : exn) (str_e : string).
Arguments Ok {A} a.
Arguments Fail {A} e str_e.

Definition ClickException : exn := OtherException "ClickException".

(** [MultiAgentClient.AGENT_URLS], in insertion order. *)
Definition AGENT_URLS (E : Env) : list (string * string) :=
  [ ("cisco", CISCO_INTERSIGHT_AGENT_URL E);
    ("service-catalog", SERVICE_CATALOG_AGENT_URL E);
    ("supervisor", "http://localhost:8000") ].

Fixpoint url_of (agent : string) (urls : list (string * string)) : option string :=
  match urls with
  | [] => None
  | (k, u) :: rest => if String.eqb k agent then Some u else url_of agent rest
  end.

(** The three [except] clauses of [send_message]; [body_text] is
    [e.response.text]. *)
Definition on_error (W : World) (agent url : string) (e : exn) (body_text : string)
    : result pyval :=
  match e with
  | TimeoutException =>
      Fail ClickException ("Timeout connecting to " ++ agent ++ " agent at " ++ url)
  | HTTPStatusError status =>
      Fail ClickException
        ("HTTP " ++ string_of_Z status ++ " error from " ++ agent ++ " agent: "
         ++ body_text)
  | _ =>
      if is_Exception e
      then Fail ClickException
             ("Error communicating with " ++ agent ++ " agent: " ++ str_exn W e)
      else Fail e (str_exn W e)
  end.

Definition send_message (W : World) (agent message : string) : result pyval :=
  match url_of agent (AGENT_URLS (env W)) with
  | None =>
      Fail ValueError
        ("Unknown agent: " ++ agent ++ ". Available: "
         ++ repr_list (map fst (AGENT_URLS (env W))))
  | Some url =>
      let endpoint :=
        if String.eqb agent "supervisor"
        then url ++ "/agent/chat"
        else url ++ "/v1/messages" in
      let payload :=
        if String.eqb agent "supervisor"
        then PDict [("message", PStr message)]
        else PDict [("id", PStr (agent ++ "_cli_call"));
                    ("params", PDict [("message", PDict [
                       ("message_id", PStr "cli_message_1");
                       ("role", PStr "user");
                       ("parts", PList [PDict [("text", PStr message)]])])])] in
      match post (env W) endpoint payload with
      | Raise e => on_error W agent url e (raised_response_text W e)
      | Return response =>
          match raise_for_status response with
          | Raise e => on_error W agent url e (response_text W response)
          | Return _ =>
              match json response with
              | Raise e => on_error W agent url e (raised_response_text W e)
              | Return data => Ok data
              end
          end
      end
  end.

Definition extract_response_text (agent : string) (response_data : pyval)
    : outcome pyval :=
  if String.eqb agent "supervisor"
  then py_get response_data "response" (PStr "No response received")
  else
    has_message <- py_in "message" response_data ;;
    has_parts <- (if has_message
                  then m <- py_getitem response_data (PStr "message") ;;
                       py_in "parts" m
                  else Return false) ;;
    if has_parts
    then m <- py_getitem response_data (PStr "message") ;;
         ps <- py_getitem m (PStr "parts") ;;
         nonempty <- (if py_truthy ps
                      then n <- py_len ps ;; Return (0 <? n)
                      else Return false) ;;
         if nonempty
         then first <- py_getitem ps (PInt 0) ;;
              py_get first "text" (PStr "No text in response")
         else Return (PStr "Invalid response format from agent")
    else Return (PStr "Invalid response format from agent").

Fixpoint text_of (key : string) (table : list (string * string)) (default : string)
    : string :=
  match table with
  | [] => default
  | (k, v) :: rest => if String.eqb k key then v else text_of key rest default
  end.

Definition descriptions : list (string * string) :=
  [ ("cisco", "Handles Cisco Intersight operations and greetings");
    ("service-catalog", "Manages service catalog operations and inquiries");
    ("supervisor", "Routes requests to appropriate specialized agents") ].

Definition get_agent_description (agent : string) : string :=
  text_of agent descriptions "Unknown agent".

Definition capabilities : list (string * string) :=
  [ ("cisco", "Device management, policy configuration, system information");
    ("service-catalog", "Service discovery, catalog browsing, service information");
    ("supervisor", "Intelligent routing, multi-agent coordination") ].

Definition get_agent_capabilities (agent : string) : string :=
  text_of agent capabilities "Unknown capabilities".

(** What a command puts on the console. *)
Inductive printed : Type :=
| Text (line : string)
| Panel (content title : string) (border_style : option string)
| Table (rows : list (string * string * string)).

(** The ['switch'] branch of [interactive], after the list of agents is
    shown: the new current agent and the line printed. *)
Definition switch_agent (W : World) (current_agent choice : string)
    : string * printed :=
  let agents := ["cisco"; "service-catalog"; "supervisor"] in
  match py_int W choice with
  | None => (current_agent, Text "[bold red]Invalid choice[/bold red]")
  | Some n =>
      match seq_index (n - 1) (List.length agents) with
      | None => (current_agent, Text "[bold red]Invalid choice[/bold red]")
      | Some i =>
          match nth_error agents i with
          | None => (current_agent, Text "[bold red]Invalid choice[/bold red]")
          | Some a =>
              (a, Text ("[bold green]Switched to " ++ a ++ " agent[/bold green]"))
          end
      end
  end.

(** [show_agent_status]: the rows of the table it prints.  The bare
    [except:] takes every exception. *)
Definition agent_status (W : World) (agent url : string) : string :=
  match get W (if negb (String.eqb agent "supervisor")
               then url ++ "/health" else url ++ "/docs") with
  | Return response =>
      if status_code response =? 200
      then "🟢 Online"
      else "🟡 HTTP " ++ string_of_Z (status_code response)
  | Raise _ => "🔴 Offline"
  end.

Definition show_agent_status (W : World) : printed :=
  Table (map (fun au => (fst au, snd au, agent_status W (fst au) (snd au)))
             (AGENT_URLS (env W))).

(** One exchange of [chat] and [broadcast]: the message is sent and the
    reply text taken out; a failure comes with its [str(e)]. *)
Definition exchange (W : World) (agent message : string) : result pyval :=
  match send_message W agent message with
  | Fail e s => Fail e s
  | Ok response =>
      match extract_response_text agent response with
      | Return t => Ok t
      | Raise e => Fail e (str_exn W e)
      end
  end.





End Client.

(* ===================================================================== *)
(** ** agents/supervisor/main.py *)
(* ===================================================================== *)

Module SupervisorApp.

(** [HTTPException(status_code=500, detail="Internal Server Error")]. *)
Definition HTTPException : exn := OtherException "HTTPException".

(** [handle_message]: the value is the JSON body of the reply. *)
Definition handle_message
    (E : Env) (fuel : nat) (supervisor_graph : SupervisorGraph.t)
    (request_message : string) : option (outcome pyval) :=
  match SupervisorGraph.run E fuel supervisor_graph request_message with
  | None => None
  | Some ran =>
      Some (try_except_Exception
              (response <- ran ;;
               Return (PDict [("response", PStr response)]))
              (fun _ => Raise HTTPException))
  end.

End SupervisorApp.

(* ===================================================================== *)
(** ** agents/cisco_intersight/prompts.py, agent.py, agent_executor.py *)
(* ===================================================================== *)

Module CiscoIntersightAgent.

(** The template of [prompts.py] around its [{message}] placeholder. *)
Definition prompt_before : string :=
"
        You are a Cisco Intersight agent that helps users manage and understand their Cisco Intersight environment. You have access to various resources and can provide information about devices, policies, and configurations.
        
        user message: ".

Definition prompt_after : string :=
"
        Keep your responses concise and to the point. If you don't know the answer, it's okay
        
    ".

Record t : Type := { llm : option ChatModel }.

(** [__init__], with the [_build_graph] it ends in: the handle is made once,
    so [_build_graph] finds it. *)
Definition __init__ (E : Env) : outcome t :=
  l <- get_llm E ;;
  Return {| llm := Some l |}.

(** [_greeting].  [prompt | self.llm] formats the template and hands the
    text to the model as one human message. *)
Definition _greeting (E : Env) (self : t) (state : MessagesState)
    : outcome (t * list BaseMessage) :=
  l <- match llm self with
       | Some l => Return l
       | None => get_llm E
       end ;;
  let user_message :=
    match rev state with
    | m :: _ => content m
    | [] => ""
    end in
  response <- invoke l [HumanMessage (prompt_before ++ user_message ++ prompt_after)] ;;
  Return ({| llm := Some l |}, [AIMessage (content response)]).

(** The compiled graph: the entry point ["greeting"], then [END]. *)
Definition ainvoke (E : Env) (self : t) (input : MessagesState)
    : outcome MessagesState :=
  r <- _greeting E self (add_messages [] input) ;;
  Return (add_messages (add_messages [] input) (snd r)).

Definition run (E : Env) (self : t) (message : string) : outcome string :=
  try_except_Exception
    (let initial_state := [HumanMessage message] in
     result <- ainvoke E self initial_state ;;
     match result with
     | [] => Return ""
     | _ :: _ => m <- last_item result ;; Return (content m)
     end)
    (fun _ => Return "An error occurred while processing your request.").

End CiscoIntersightAgent.

Module CiscoIntersightAgentExecutor.

(** The [a2a.types.Message] that the executor builds. *)
Record AgentMessage : Type := {
  role : A2A.Role;
  message_id : string;
  metadata : list (string * string);
  parts : list A2A.Part
}.

Record t : Type := { agent : CiscoIntersightAgent.t }.

(** [AGENT_CARD.name] of [card.py]. *)
Definition card_name : string := "Cisco Intersight Agent".

(** [execute]: the events put on the queue; [uuid] is [str(uuid4())]. *)
Definition execute (E : Env) (uuid : string) (self : t) (prompt : string)
    : outcome (list AgentMessage) :=
  try_except_Exception
    (result <- CiscoIntersightAgent.run E (agent self) prompt ;;
     let message :=
       {| role := A2A.agent;
          message_id := uuid;
          metadata := [("name", card_name)];
          parts := [ {| A2A.root := {| A2A.text := result |} |} ] |} in
     Return [message])
    (fun _ => Return []).

End CiscoIntersightAgentExecutor.

(* ===================================================================== *)
(** ** main.py: the process manager *)
(* ===================================================================== *)

Module MultiAgentSystem.

(** A started child process, named by the command line that started it. *)
Record Process : Type := { command : list string }.

Definition TimeoutExpired : exn := OtherException "TimeoutExpired".

(** [isinstance(e, subprocess.TimeoutExpired)]. *)
Definition is_TimeoutExpired (e : exn) : bool :=
  match e with
  | OtherException class => String.eqb class "TimeoutExpired"
  | _ => false
  end.

(** The operating system as the manager sees it.  [poll] gives the exit
    code, [None] while the process runs; the manager asks once per process
    and phase, so each phase has its own answer. *)
Record World : Type := {
  python_exe : string;
  Popen : list string -> outcome Process;
  poll_at_start : Process -> outcome (option Z);
  poll_at_status : Process -> outcome (option Z);
  communicate : Process -> outcome (string * string);
  terminate : Process -> outcome unit;
  wait : Process -> outcome unit;
  kill : Process -> outcome unit;
  str_exn : exn -> string
}.

(** The state of a call on the manager: [self.processes], the console
    lines, and the exception that left the call, if any. *)
Record call (A : Type) : Type := {
  processes : list Process;
  console : list string;
  value : outcome A
}.
Arguments processes {A} c.
Arguments console {A} c.
Arguments value {A} c.

(** [start_agent]; the value is the process or [None]. *)
Definition start_agent (W : World) (self_processes : list Process)
    (agent_name module_path : string) (port : Z) : call (option Process) :=
  let starting :=
    "[blue]Starting " ++ agent_name ++ " agent on port "
    ++ Client.string_of_Z port ++ "...[/blue]" in
  let failed (ps : list Process) (e : exn) : call (option Process) :=
    if is_Exception e
    then {| processes := ps;
            console := [starting;
                        "[red]✗ Failed to start " ++ agent_name ++ ": "
                        ++ str_exn W e ++ "[/red]"];
            value := Return None |}
    else {| processes := ps; console := [starting]; value := Raise e |} in
  match Popen W [python_exe W; "-m"; module_path] with
  | Raise e => failed self_processes e
  | Return process =>
      let ps := (self_processes ++ [process])%list in
      match poll_at_start W process with
      | Raise e => failed ps e
      | Return None =>
          {| processes := ps;
             console := [starting;
                         "[green]✓ " ++ agent_name
                         ++ " agent started successfully[/green]"];
             value := Return (Some process) |}
      | Return (Some _) =>
          match communicate W process with
          | Raise e => failed ps e
          | Return (_, stderr) =>
              {| processes := ps;
                 console := [starting;
                             "[red]✗ " ++ agent_name
                             ++ " agent failed to start[/red]";
                             "[red]Error: " ++ stderr ++ "[/red]"];
                 value := Return None |}
          end
      end
  end.

(** The agents that [start_all_agents] starts, and its [for] loop over
    them: each call works on the processes left by the one before. *)
Definition agents : list (string * string * Z) :=
  [ ("Cisco Intersight", "agents.cisco_intersight.server", 8002);
    ("Service Catalog", "agents.service_catalog.server", 8001);
    ("Supervisor", "agents.supervisor.main", 8000) ].

Fixpoint start_each (W : World) (self_processes : list Process)
    (todo : list (string * string * Z)) : call unit :=
  match todo with
  | [] => {| processes := self_processes; console := []; value := Return tt |}
  | (agent_name, module_path, port) :: rest =>
      let c := start_agent W self_processes agent_name module_path port in
      match value c with
      | Raise e =>
          {| processes := processes c; console := console c; value := Raise e |}
      | Return _ =>
          let r := start_each W (processes c) rest in
          {| processes := processes r;
             console := (console c ++ console r)%list;
             value := value r |}
      end
  end.

(** The rows of the table of [_show_status]. *)
Definition agents_info : list (string * string * string) :=
  [ ("Cisco Intersight", "8002", "http://localhost:8002");
    ("Service Catalog", "8001", "http://localhost:8001");
    ("Supervisor", "8000", "http://localhost:8000") ].

Fixpoint status_rows (W : World) (self_processes : list Process) (i : nat)
    (infos : list (string * string * string))
    : outcome (list (string * string * string * string)) :=
  match infos with
  | [] => Return []
  | (name, port, url) :: rest =>
      status <- match nth_error self_processes i with
                | Some process =>
                    code <- poll_at_status W process ;;
                    Return (match code with
                            | None => "🟢 Running"
                            | Some _ => "🔴 Stopped"
                            end)
                | None => Return "🔴 Stopped"
                end ;;
      rows <- status_rows W self_processes (S i) rest ;;
      Return ((name, port, url, status) :: rows)
  end.

Definition _show_status (W : World) (self_processes : list Process)
    : outcome (list (string * string * string * string)) :=
  status_rows W self_processes 0 agents_info.

(** What [stop_all_agents] asks of the operating system. *)
Inductive action : Type :=
| Terminate (p : Process)
| Wait (p : Process)
| Kill (p : Process).

(** The [try] statement of the loop body: the actions done and the
    exception that leaves it, if any. *)
Definition stop_one (W : World) (process : Process) : list action * option exn :=
  let handle (done : list action) (e : exn) : list action * option exn :=
    if is_TimeoutExpired e
    then match kill W process with
         | Return _ => ((done ++ [Kill process])%list, None)
         | Raise e' => ((done ++ [Kill process])%list, Some e')
         end
    else if is_Exception e then (done, None) else (done, Some e) in
  match terminate W process with
  | Raise e => handle [Terminate process] e
  | Return _ =>
      match wait W process with
      | Raise e => handle [Terminate process; Wait process] e
      | Return _ => ([Terminate process; Wait process], None)
      end
  end.

Fixpoint stop_each (W : World) (ps : list Process) : list action * option exn :=
  match ps with
  | [] => ([], None)
  | process :: rest =>
      match stop_one W process with
      | (done, Some e) => (done, Some e)
      | (done, None) =>
          let r := stop_each W rest in ((done ++ fst r)%list, snd r)
      end
  end.

(** [stop_all_agents]: the actions done, and the state of the call. *)
Definition stop_all_agents (W : World) (self_processes : list Process)
    : list action * call unit :=
  match stop_each W self_processes with
  | (done, Some e) =>
      (done, {| processes := self_processes; console := []; value := Raise e |})
  | (done, None) =>
      (done, {| processes := [];
                console := ["[green]All agents stopped.[/green]"];
                value := Return tt |})
  end.

End MultiAgentSystem.

(* ===================================================================== *)
(** ** client/cli.py: one turn of [interactive] *)
(* ===================================================================== *)

Module Interactive.







End Interactive.

(* ===================================================================== *)
(** ** main.py: the [status] command *)
(* ===================================================================== *)

Module Main.

(** The agents that [check_status] probes. *)
Definition agents : list (string * string) :=
  [ ("Cisco Intersight", "http://localhost:8002");
    ("Service Catalog", "http://localhost:8001");
    ("Supervisor", "http://localhost:8000") ].

(** The status text of one agent; [get] is the HTTP client's [get] and
    [str20] gives [str(e)[:20]]. *)
Definition agent_status (get : string -> outcome Response) (str20 : exn -> string)
    (name url : string) : outcome string :=
  match get (if String.eqb name "Supervisor"
             then url ++ "/docs" else url ++ "/health") with
  | Return response =>
      if status_code response =? 200
      then Return "🟢 Online"
      else Return ("🟡 HTTP " ++ Client.string_of_Z (status_code response))
  | Raise ConnectError => Return "🔴 Offline"
  | Raise e =>
      if is_Exception e
      then Return ("🟠 Error: " ++ str20 e ++ "...")
      else Raise e
  end.

Fixpoint status_rows (get : string -> outcome Response) (str20 : exn -> string)
    (todo : list (string * string)) : outcome (list (string * string * string)) :=
  match todo with
  | [] => Return []
  | (name, url) :: rest =>
      status <- agent_status get str20 name url ;;
      rows <- status_rows get str20 rest ;;
      Return ((name, url, status) :: rows)
  end.

(** [check_status] of the [status] command: the rows of its table. *)
Definition check_status (get : string -> outcome Response) (str20 : exn -> string)
    : outcome (list (string * string * string)) :=
  status_rows get str20 agents.

End Main.

(* ===================================================================== *)
(** ** Sample worlds for the client and the process manager *)
(* ===================================================================== *)

Module Demo.

(** A client whose agents are reached through [net] and probed through
    [probe]. *)
Definition world (net : string -> pyval -> outcome Response)
    (probe : string -> outcome Response) : Client.World :=
  {| Client.env := Sample.env net (Sample.answers "");
     Client.get := probe;
     Client.str_exn := fun e =>
       match e with
       | ConnectError => "All connection attempts failed"
       | KeyError => "0"
       | _ => "error"
       end;
     Client.response_text := fun _ => "Internal Server Error";
     Client.raised_response_text := fun _ => "";
     Client.format_other := fun _ => "None";
     Client.py_int := fun s =>
       if String.eqb s "0" then Some 0
       else if String.eqb s "1" then Some 1
       else if String.eqb s "2" then Some 2
       else if String.eqb s "3" then Some 3
       else if String.eqb s "4" then Some 4
       else if String.eqb s "-1" then Some (-1)
       else None |}.

Definition refused (url : string) (request : pyval) : outcome Response :=
  Raise ConnectError.

Definition timed_out (url : string) (request : pyval) : outcome Response :=
  Raise TimeoutException.


(** The delegates are up, the supervisor is not. *)
Definition probe_delegates_up (url : string) : outcome Response :=
  if String.eqb url "http://localhost:8000/docs"
  then Raise ConnectError
  else Return {| status_code := 200; body := None |}.


(** Processes of the manager. *)
Definition cisco_process : MultiAgentSystem.Process :=
  {| MultiAgentSystem.command := ["python"; "-m"; "agents.cisco_intersight.server"] |}.
Definition catalog_process : MultiAgentSystem.Process :=
  {| MultiAgentSystem.command := ["python"; "-m"; "agents.service_catalog.server"] |}.
Definition supervisor_process : MultiAgentSystem.Process :=
  {| MultiAgentSystem.command := ["python"; "-m"; "agents.supervisor.main"] |}.

Definition spawns_cisco (args : list string) : bool :=
  match args with
  | [_; _; m] => String.eqb m "agents.cisco_intersight.server"
  | _ => false
  end.

(** An operating system where the interpreter cannot start the Cisco
    Intersight module, the other processes run, and a process that is
    asked to stop takes its time; [kill_result] is what killing gives. *)
Definition system (kill_result : outcome unit) : MultiAgentSystem.World :=
  {| MultiAgentSystem.python_exe := "python";
     MultiAgentSystem.Popen := fun args =>
       if spawns_cisco args
       then Raise (OtherException "FileNotFoundError")
       else Return {| MultiAgentSystem.command := args |};
     MultiAgentSystem.poll_at_start := fun _ => Return None;
     MultiAgentSystem.poll_at_status := fun _ => Return None;
     MultiAgentSystem.communicate := fun _ => Return ("", "");
     MultiAgentSystem.terminate := fun _ => Return tt;
     MultiAgentSystem.wait := fun _ => Raise MultiAgentSystem.TimeoutExpired;
     MultiAgentSystem.kill := fun _ => kill_result;
     MultiAgentSystem.str_exn := fun _ => "No such file or directory" |}.


End Demo.

(* ===================================================================== *)
(** * Properties *)
(* ===================================================================== *)

(** ** The error monad *)

Lemma last_item_snoc {A : Type} (l : list A) (x : A) :
  last_item (l ++ [x])%list = Return x.
Proof. unfold last_item. now rewrite rev_unit. Qed.

(** ** The delegate-calling tools *)

Section Tools.

Variable E : Env.

(** Each tool is: one request, the status check, the decoding, the reading
    of the reply, all under the handler that answers with the empty
    string. *)
Lemma call_cisco_agent_eq (m : string) :
  call_cisco_agent E m =
  try_except_Exception
    (response <- post E (Spec.cisco_url E) (Spec.cisco_request E m) ;;
     raise_for_status response ;;;
     response_data <- json response ;;
     read_reply cisco_invalid_response response_data)
    (fun _ => Return (PStr "")).
Proof. reflexivity. Qed.

Lemma call_service_catalog_agent_eq (m : string) :
  call_service_catalog_agent E m =
  try_except_Exception
    (response <- post E (Spec.service_catalog_url E) (Spec.service_catalog_request E m) ;;
     raise_for_status response ;;;
     response_data <- json response ;;
     read_reply service_catalog_invalid_response response_data)
    (fun _ => Return (PStr "")).
Proof. reflexivity. Qed.

End Tools.

(** Whatever [read_reply] raises is an [Exception]. *)
Lemma py_in_raises key c e : py_in key c = Raise e -> is_Exception e = true.
Proof. destruct c; simpl; intros H; inversion H; reflexivity. Qed.

Lemma py_getitem_raises c k e : py_getitem c k = Raise e -> is_Exception e = true.
Proof.
  destruct c, k; simpl; intros H;
    repeat match type of H with
           | context [match ?x with _ => _ end] => destruct x
           end;
    inversion H; reflexivity.
Qed.

Lemma py_get_raises o k d e : py_get o k d = Raise e -> is_Exception e = true.
Proof.
  destruct o; simpl; intros H; try (inversion H; reflexivity).
  destruct (dict_lookup k entries); inversion H.
Qed.

Lemma bind_raises {A B : Type} (c : outcome A) (k : A -> outcome B) (e : exn) :
  bind c k = Raise e -> c = Raise e \/ exists a, c = Return a /\ k a = Raise e.
Proof.
  destruct c as [a | e']; simpl; intros H.
  - right. eauto.
  - left. now inversion H.
Qed.

Lemma read_reply_raises inv data e :
  read_reply inv data = Raise e -> is_Exception e = true.
Proof.
  unfold read_reply. intros H.
  apply bind_raises in H as [H | (hm & _ & H)]; [now apply py_in_raises in H |].
  apply bind_raises in H as [H | (hp & _ & H)].
  - destruct hm; [| discriminate].
    apply bind_raises in H as [H | (m & _ & H)];
      [now apply py_getitem_raises in H | now apply py_in_raises in H].
  - destruct hp; [| discriminate].
    apply bind_raises in H as [H | (m & _ & H)]; [now apply py_getitem_raises in H |].
    apply bind_raises in H as [H | (ps & _ & H)]; [now apply py_getitem_raises in H |].
    apply bind_raises in H as [H | (f & _ & H)]; [now apply py_getitem_raises in H |].
    now apply py_get_raises in H.
Qed.

(** A body without the two keys gives the explanatory text, or raises
    inside the guarded block. *)
Lemma read_reply_missing inv data :
  Spec.has_message_parts data = false ->
  read_reply inv data = Return (PStr inv) \/ exists e, read_reply inv data = Raise e.
Proof.
  intros Hm. unfold read_reply.
  destruct data; simpl in *; eauto.
  - destruct (match index 0 "message" s with Some _ => true | None => false end);
      simpl; eauto.
  - destruct (existsb _ items); simpl; eauto.
  - unfold dict_has. destruct (dict_lookup "message" entries) as [v |]; simpl; eauto.
    destruct v; simpl; eauto.
    + destruct (match index 0 "parts" s with Some _ => true | None => false end);
        simpl; eauto.
    + destruct (existsb _ items); simpl; eauto.
    + rewrite Hm. simpl. eauto.
Qed.

(** The reply of a body that has the two keys. *)
Lemma read_reply_present inv entries inner ps :
  dict_lookup "message" entries = Some (PDict inner) ->
  dict_lookup "parts" inner = Some ps ->
  read_reply inv (PDict entries) =
  (first <- py_getitem ps (PInt 0) ;; py_get first "text" (PStr "")).
Proof.
  intros H1 H2. unfold read_reply, py_in, py_getitem, dict_has.
  rewrite H1. cbn [bind]. rewrite H2. cbn [bind]. reflexivity.
Qed.

Lemma tool_result_failed inv o :
  Spec.failed_call o = true ->
  Spec.tool_result inv o = Return (PStr "") \/ Spec.tool_result inv o = Return (PStr inv).
Proof.
  unfold Spec.tool_result, Spec.failed_call. destruct o as [r | e].
  - simpl. unfold raise_for_status, Spec.is_2xx.
    destruct ((200 <=? status_code r) && (status_code r <=? 299)); simpl; [| now left].
    unfold json. destruct (body r) as [data |]; simpl; [| now left].
    intros Hm. apply negb_true_iff in Hm.
    destruct (read_reply_missing inv data Hm) as [-> | [e He]]; [now right |].
    rewrite He. simpl. rewrite (read_reply_raises _ _ _ He). now left.
  - destruct e; simpl; intros H; try discriminate; now left.
Qed.

(** C2: for every message and every listed outcome of the single network
    call (connection failure, timeout, status outside 2xx, body that is not
    JSON or lacks the [message] or [parts] keys), each delegate-calling tool
    returns a string, the empty one or its "did not return a valid
    response" text, and does not raise. *)
Theorem tools_absorb_failed_calls (E : Env) (message : string) :
  (Spec.failed_call (post E (Spec.cisco_url E) (Spec.cisco_request E message)) = true ->
   call_cisco_agent E message = Return (PStr "") \/
   call_cisco_agent E message = Return (PStr cisco_invalid_response))
  /\
  (Spec.failed_call
     (post E (Spec.service_catalog_url E) (Spec.service_catalog_request E message)) = true ->
   call_service_catalog_agent E message = Return (PStr "") \/
   call_service_catalog_agent E message =
     Return (PStr service_catalog_invalid_response)).
Proof.
  split; intros H.
  - rewrite call_cisco_agent_eq. now apply tool_result_failed.
  - rewrite call_service_catalog_agent_eq. now apply tool_result_failed.
Qed.

Lemma tools_absorb_failed_calls_witness :
  call_cisco_agent (Sample.env Sample.server_error (Sample.answers "")) "hello"
    = Return (PStr "")
  /\ call_service_catalog_agent
       (Sample.env (Sample.replies (PDict [("message", PDict [])])) (Sample.answers ""))
       "bye"
    = Return (PStr service_catalog_invalid_response).
Proof.
  split.
  - destruct (proj1 (tools_absorb_failed_calls
                       (Sample.env Sample.server_error (Sample.answers "")) "hello")
                    eq_refl) as [H | H].
    + exact H.
    + discriminate H.
  - destruct (proj2 (tools_absorb_failed_calls
                       (Sample.env (Sample.replies (PDict [("message", PDict [])]))
                                   (Sample.answers "")) "bye")
                    eq_refl) as [H | H].
    + discriminate H.
    + exact H.
Defined.

(** A decoded 2xx response goes to [read_reply] under the handler. *)
Lemma tool_result_decoded inv r data :
  Spec.is_2xx (status_code r) = true ->
  body r = Some data ->
  Spec.tool_result inv (Return r) =
  try_except_Exception (read_reply inv data) (fun _ => Return (PStr "")).
Proof.
  intros Hs Hb. unfold Spec.tool_result, raise_for_status, json.
  unfold Spec.is_2xx in Hs. cbn [bind]. rewrite Hs, Hb. reflexivity.
Qed.

Lemma read_reply_degenerate_parts inv entries inner ps :
  dict_lookup "message" entries = Some (PDict inner) ->
  dict_lookup "parts" inner = Some ps ->
  (ps = PList [] \/
   exists p rest, ps = PList (p :: rest) /\ Spec.lacks_text p = true) ->
  try_except_Exception (read_reply inv (PDict entries)) (fun _ => Return (PStr ""))
  = Return (PStr "").
Proof.
  intros H1 H2 Hps. rewrite (read_reply_present inv entries inner ps H1 H2).
  destruct Hps as [-> | (p & rest & -> & Hp)]; [reflexivity |].
  cbn. destruct p; try reflexivity.
  cbn in Hp |- *. unfold dict_has in Hp.
  destruct (dict_lookup "text" entries0); [discriminate | reflexivity].
Qed.

(** C10: when the success response has the [message] and [parts] keys but
    [parts] is the empty list, [parts[0]] raises [IndexError] inside the
    guarded block and the tool returns the empty string, not its "did not
    return a valid response" text; a first part without a [text] key gives
    the empty string too.  In both cases the tool returns a string and
    nothing is raised to the caller. *)
Theorem degenerate_parts_give_empty_string
    (E : Env) (message : string) (r : Response)
    (entries inner : list (string * pyval)) (ps : pyval) :
  Spec.is_2xx (status_code r) = true ->
  body r = Some (PDict entries) ->
  dict_lookup "message" entries = Some (PDict inner) ->
  dict_lookup "parts" inner = Some ps ->
  (ps = PList [] \/
   exists p rest, ps = PList (p :: rest) /\ Spec.lacks_text p = true) ->
  (ps = PList [] ->
   read_reply cisco_invalid_response (PDict entries) = Raise IndexError /\
   read_reply service_catalog_invalid_response (PDict entries) = Raise IndexError)
  /\
  (post E (Spec.cisco_url E) (Spec.cisco_request E message) = Return r ->
   call_cisco_agent E message = Return (PStr "") /\
   call_cisco_agent E message <> Return (PStr cisco_invalid_response))
  /\
  (post E (Spec.service_catalog_url E) (Spec.service_catalog_request E message)
     = Return r ->
   call_service_catalog_agent E message = Return (PStr "") /\
   call_service_catalog_agent E message
     <> Return (PStr service_catalog_invalid_response)).
Proof.
  intros Hs Hb H1 H2 Hps. split; [| split].
  - intros ->. split; rewrite (read_reply_present _ entries inner _ H1 H2);
      reflexivity.
  - intros Hpost.
    assert (Hc : call_cisco_agent E message = Return (PStr "")).
    { rewrite call_cisco_agent_eq.
      change (Spec.tool_result cisco_invalid_response
                (post E (Spec.cisco_url E) (Spec.cisco_request E message))
              = Return (PStr "")).
      rewrite Hpost, (tool_result_decoded _ r _ Hs Hb).
      now apply read_reply_degenerate_parts with (inner := inner) (ps := ps). }
    split; [exact Hc | rewrite Hc; discriminate].
  - intros Hpost.
    assert (Hc : call_service_catalog_agent E message = Return (PStr "")).
    { rewrite call_service_catalog_agent_eq.
      change (Spec.tool_result service_catalog_invalid_response
                (post E (Spec.service_catalog_url E)
                        (Spec.service_catalog_request E message))
              = Return (PStr "")).
      rewrite Hpost, (tool_result_decoded _ r _ Hs Hb).
      now apply read_reply_degenerate_parts with (inner := inner) (ps := ps). }
    split; [exact Hc | rewrite Hc; discriminate].
Qed.

Lemma degenerate_parts_give_empty_string_witness :
  call_cisco_agent
    (Sample.env (Sample.replies (PDict [("message", PDict [("parts", PList [])])]))
                (Sample.answers "")) "hello"
    = Return (PStr "")
  /\ call_service_catalog_agent
       (Sample.env
          (Sample.replies
             (PDict [("message", PDict [("parts", PList [PDict [("kind", PStr "text")]])])]))
          (Sample.answers "")) "bye"
    = Return (PStr "").
Proof.
  split.
  - refine (proj1 (proj1 (proj2 (degenerate_parts_give_empty_string
      (Sample.env (Sample.replies (PDict [("message", PDict [("parts", PList [])])]))
                  (Sample.answers ""))
      "hello"
      {| status_code := 200;
         body := Some (PDict [("message", PDict [("parts", PList [])])]) |}
      [("message", PDict [("parts", PList [])])]
      [("parts", PList [])]
      (PList [])
      eq_refl eq_refl eq_refl eq_refl (or_introl eq_refl))) eq_refl)).
  - refine (proj1 (proj2 (proj2 (degenerate_parts_give_empty_string
      (Sample.env
         (Sample.replies
            (PDict [("message", PDict [("parts", PList [PDict [("kind", PStr "text")]])])]))
         (Sample.answers ""))
      "bye"
      {| status_code := 200;
         body := Some (PDict [("message",
                   PDict [("parts", PList [PDict [("kind", PStr "text")]])])]) |}
      [("message", PDict [("parts", PList [PDict [("kind", PStr "text")]])])]
      [("parts", PList [PDict [("kind", PStr "text")]])]
      (PList [PDict [("kind", PStr "text")]])
      eq_refl eq_refl eq_refl eq_refl
      (or_intror (ex_intro _ (PDict [("kind", PStr "text")])
                    (ex_intro _ [] (conj eq_refl eq_refl)))))) eq_refl)).
Defined.





(** ** The supervisor graph *)

Section Graph.

Variable E : Env.

(** The decision node is: pick the model handle, call it on the routing
    instructions and the history, wrap the text of the reply. *)
Lemma supervisor_node_eq (self : SupervisorGraph.t) (state : MessagesState) :
  _supervisor_node E self state =
  (l <- Spec.model_in_use E self ;;
   response <- invoke l (Spec.decision_input state) ;;
   Return ({| llm := Some l |}, [AIMessage (content response)])).
Proof.
  unfold _supervisor_node, Spec.model_in_use.
  destruct (llm self) as [l |]; [reflexivity |].
  destruct (get_llm E); reflexivity.
Qed.

Lemma supervisor_node_update self state self' update :
  _supervisor_node E self state = Return (self', update) ->
  exists l response,
    Spec.model_in_use E self = Return l /\
    invoke l (Spec.decision_input state) = Return response /\
    self' = {| llm := Some l |} /\
    update = [AIMessage (content response)].
Proof.
  rewrite supervisor_node_eq.
  destruct (Spec.model_in_use E self) as [l |]; [| discriminate].
  cbn [bind]. destruct (invoke l (Spec.decision_input state)) as [r |] eqn:Hr;
    [| discriminate].
  cbn [bind]. intros H. inversion H. exists l, r. auto.
Qed.

(** After a message built by [AIMessage(content=...)], the route is ["end"]. *)
Lemma should_continue_plain (state : MessagesState) (c : string) :
  __should_continue (add_messages state [AIMessage c]) = Return "end".
Proof.
  unfold __should_continue, add_messages. rewrite last_item_snoc. reflexivity.
Qed.

Lemma step_supervisor (c : config) :
  at_node c = supervisor ->
  step E c =
  (r <- _supervisor_node E (self_ c) (messages c) ;;
   Return {| at_node := END; self_ := fst r;
             messages := add_messages (messages c) (snd r) |}).
Proof.
  intros Hn. unfold step. rewrite Hn.
  destruct (_supervisor_node E (self_ c) (messages c)) as [[s u] |] eqn:Hnode;
    [| reflexivity].
  destruct (supervisor_node_update _ _ _ _ Hnode) as (l & r & _ & _ & _ & ->).
  cbn [bind snd fst]. rewrite should_continue_plain. reflexivity.
Qed.

Lemma step_supervisor_ends (c c' : config) :
  at_node c = supervisor -> step E c = Return c' ->
  at_node c' = END /\
  exists response, messages c' = (messages c ++ [AIMessage (content response)])%list.
Proof.
  intros Hn. rewrite (step_supervisor c Hn).
  destruct (_supervisor_node E (self_ c) (messages c)) as [[s u] |] eqn:Hnode;
    [| discriminate].
  destruct (supervisor_node_update _ _ _ _ Hnode) as (l & r & _ & _ & _ & ->).
  cbn. intros H. inversion H. cbn. split; [reflexivity | now exists r].
Qed.

Lemma loop_at_end (fuel : nat) (c : config) :
  at_node c = END -> loop E fuel c = Some (Return c).
Proof. intros Hn. destruct fuel; cbn; now rewrite Hn. Qed.

(** From the entry point the executor takes one step, whatever the fuel. *)
Lemma loop_supervisor (fuel : nat) (c : config) :
  at_node c = supervisor -> loop E (S fuel) c = Some (step E c).
Proof.
  intros Hn. cbn [loop]. rewrite Hn.
  destruct (step E c) as [c' |] eqn:Hs; [| reflexivity].
  destruct (step_supervisor_ends c c' Hn Hs) as [He _].
  now apply loop_at_end.
Qed.

Lemma ainvoke_from_user (fuel : nat) (self : SupervisorGraph.t) (m : string) :
  ainvoke E (S fuel) self (run_initial_state m) =
  Some (r <- _supervisor_node E self [HumanMessage m] ;;
        Return (HumanMessage m :: snd r)).
Proof.
  unfold ainvoke. cbn [run_initial_state convert_to_messages convert_to_message
                       d_role d_content String.eqb Ascii.eqb Bool.eqb orb bind
                       add_messages app].
  rewrite loop_supervisor by reflexivity. rewrite step_supervisor by reflexivity.
  cbn [self_ messages]. f_equal.
  destruct (_supervisor_node E self [HumanMessage m]) as [[s u] |]; reflexivity.
Qed.

(** [run] in one equation: the fixed error text around one completion. *)
Lemma run_eq (fuel : nat) (self : SupervisorGraph.t) (m : string) :
  run E (S fuel) self m =
  Some (try_except_Exception
          (l <- Spec.model_in_use E self ;;
           response <- invoke l (Spec.decision_input [HumanMessage m]) ;;
           Return (content response))
          (fun _ => Return error_reply)).
Proof.
  unfold run. rewrite ainvoke_from_user, supervisor_node_eq. f_equal.
  destruct (Spec.model_in_use E self) as [l |]; [| reflexivity].
  cbn [bind]. destruct (invoke l _) as [r |]; reflexivity.
Qed.

Lemma reachable_from_supervisor (c0 c : config) :
  at_node c0 = supervisor ->
  Spec.reachable E c0 c ->
  c = c0 \/
  (at_node c = END /\
   exists response, messages c = (messages c0 ++ [AIMessage (content response)])%list).
Proof.
  intros H0 Hr. induction Hr as [| c c' Hr IH Hne Hs].
  - now left.
  - right. destruct IH as [-> | [He _]]; [| contradiction].
    exact (step_supervisor_ends c0 c' H0 Hs).
Qed.


End Graph.

(** C1: for every user message, when an error (an [Exception]) is raised
    during the run, be it by the graph invocation as a whole, by the
    completion call or by the construction of the model handle, [run]
    returns the fixed text "An error occurred while processing your
    request." and raises nothing of that kind to its caller. *)
Theorem run_absorbs_errors
    (E : Env) (fuel : nat) (self : SupervisorGraph.t) (message : string) :
  (forall e,
     ainvoke E fuel self (run_initial_state message) = Some (Raise e) ->
     is_Exception e = true ->
     run E fuel self message = Some (Return error_reply))
  /\
  (forall l e,
     llm self = Some l ->
     invoke l (Spec.decision_input [HumanMessage message]) = Raise e ->
     is_Exception e = true ->
     run E (S fuel) self message = Some (Return error_reply))
  /\
  (forall e,
     llm self = None ->
     get_llm E = Raise e ->
     is_Exception e = true ->
     run E (S fuel) self message = Some (Return error_reply))
  /\
  (forall e,
     run E fuel self message = Some (Raise e) -> is_Exception e = false).
Proof.
  repeat split.
  - intros e Ha He. unfold run. rewrite Ha. cbn. now rewrite He.
  - intros l e Hl Hi He. rewrite run_eq. unfold Spec.model_in_use.
    rewrite Hl. cbn [bind]. rewrite Hi. cbn. now rewrite He.
  - intros e Hl Hg He. rewrite run_eq. unfold Spec.model_in_use.
    rewrite Hl, Hg. cbn. now rewrite He.
  - intros e. unfold run.
    destruct (ainvoke E fuel self (run_initial_state message)) as [invoked |];
      [| discriminate].
    intros H. injection H as H. revert H.
    match goal with
    | |- try_except_Exception ?b _ = _ -> _ => destruct b as [s | e']
    end; cbn; [discriminate |].
    destruct (is_Exception e') eqn:He'; [discriminate |].
    intros H. inversion H. now subst.
Qed.

Lemma run_absorbs_errors_witness :
  run (Sample.env Spec.echo_delegate (Sample.answers "")) 25
      (Sample.graph Sample.unreachable_model) "hello"
  = Some (Return "An error occurred while processing your request.")
  /\ run (Sample.with_provider "anthropic"
            (Sample.env Spec.echo_delegate (Sample.answers ""))) 25
         Sample.bare_graph "hello"
  = Some (Return "An error occurred while processing your request.")
  /\ run (Sample.env Spec.echo_delegate (Sample.answers "")) 0
         (Sample.graph Sample.unreachable_model) "hello"
  = None
  /\ is_Exception KeyboardInterrupt = false.
Proof.
  split; [| split; [| split]].
  - exact (proj1 (proj2 (run_absorbs_errors
             (Sample.env Spec.echo_delegate (Sample.answers "")) 24
             (Sample.graph Sample.unreachable_model) "hello"))
           Sample.unreachable_model (OtherException "APIConnectionError")
           eq_refl eq_refl eq_refl).
  - exact (proj1 (proj2 (proj2 (run_absorbs_errors
             (Sample.with_provider "anthropic"
                (Sample.env Spec.echo_delegate (Sample.answers ""))) 24
             Sample.bare_graph "hello")))
           ValueError eq_refl eq_refl eq_refl).
  - reflexivity.
  - exact (proj2 (proj2 (proj2 (run_absorbs_errors
             (Sample.env Spec.echo_delegate (Sample.answers "")) 25
             (Sample.graph Sample.interrupted_model) "hello")))
           KeyboardInterrupt eq_refl).
Defined.

Lemma dispatches_snoc_ai (state : MessagesState) (c : string) :
  Spec.dispatches (state ++ [AIMessage c])%list = Spec.dispatches state.
Proof.
  unfold Spec.dispatches. rewrite filter_app, length_app. cbn. apply Nat.add_0_r.
Qed.

(** C4: every message that the decision node adds to the state is an
    [AIMessage] built from the text of the completion alone and carries no
    tool calls; hence the routing condition answers ["end"] after every
    decision, no configuration reachable from the entry point is at the
    ["tools"] node or has gained a tool result, the executor ends after the
    single step of the first decision, and the result of a run does not
    depend on the network or on the tool node: nothing is dispatched. *)
Theorem decisions_carry_no_tool_calls (E : Env) :
  (forall self state self' update,
     _supervisor_node E self state = Return (self', update) ->
     (exists l response,
        Spec.model_in_use E self = Return l /\
        invoke l (Spec.decision_input state) = Return response /\
        update = [AIMessage (content response)]) /\
     Forall (fun m => type m = ai /\ tool_calls m = Some []) update /\
     __should_continue (add_messages state update) = Return "end")
  /\
  (forall c0 c,
     at_node c0 = supervisor ->
     Spec.reachable E c0 c ->
     at_node c <> tools_node /\
     Spec.dispatches (messages c) = Spec.dispatches (messages c0))
  /\
  (forall c0 fuel,
     at_node c0 = supervisor ->
     loop E (S fuel) c0 = Some (step E c0) /\
     (forall c', step E c0 = Return c' -> at_node c' = END))
  /\
  (forall E' fuel self message,
     LLM_PROVIDER E' = LLM_PROVIDER E ->
     ChatOpenAI E' = ChatOpenAI E ->
     run E' (S fuel) self message = run E (S fuel) self message).
Proof.
  split; [| split; [| split]].
  - intros self state self' update Hnode.
    destruct (supervisor_node_update E _ _ _ _ Hnode) as (l & r & Hl & Hr & _ & ->).
    split; [now exists l, r |]. split.
    + constructor; [now split | constructor].
    + apply should_continue_plain.
  - intros c0 c H0 Hr.
    destruct (reachable_from_supervisor E c0 c H0 Hr) as [-> | [He [r Hm]]].
    + rewrite H0. split; [discriminate | reflexivity].
    + rewrite He, Hm. split; [discriminate | apply dispatches_snoc_ai].
  - intros c0 fuel H0. split; [now apply loop_supervisor |].
    intros c' Hs. exact (proj1 (step_supervisor_ends E c0 c' H0 Hs)).
  - intros E' fuel self message Hp Hm. rewrite !run_eq.
    unfold Spec.model_in_use, get_llm. now rewrite Hp, Hm.
Qed.

Lemma decisions_carry_no_tool_calls_witness :
  __should_continue
    (add_messages [HumanMessage "hello"] [AIMessage ""]) = Return "end"
  /\ loop (Sample.env Spec.echo_delegate (Sample.requests_tool "call_cisco_agent" []))
          25
          {| at_node := supervisor;
             self_ := Sample.graph (Sample.requests_tool "call_cisco_agent" []);
             messages := [HumanMessage "hello"] |}
     = Some (Return
          {| at_node := END;
             self_ := Sample.graph (Sample.requests_tool "call_cisco_agent" []);
             messages := [HumanMessage "hello"; AIMessage ""] |})
  /\ run (Sample.env Sample.server_error (Sample.requests_tool "call_cisco_agent" []))
         25 (Sample.graph (Sample.requests_tool "call_cisco_agent" [])) "hello"
     = run (Sample.env Spec.echo_delegate (Sample.requests_tool "call_cisco_agent" []))
           25 (Sample.graph (Sample.requests_tool "call_cisco_agent" [])) "hello".
Proof.
  split; [| split].
  - exact (proj2 (proj2 (proj1 (decisions_carry_no_tool_calls
             (Sample.env Spec.echo_delegate (Sample.requests_tool "call_cisco_agent" [])))
           (Sample.graph (Sample.requests_tool "call_cisco_agent" []))
           [HumanMessage "hello"]
           {| llm := Some (Sample.requests_tool "call_cisco_agent" []) |}
           [AIMessage ""]
           eq_refl))).
  - exact (proj1 (proj1 (proj2 (proj2 (decisions_carry_no_tool_calls
             (Sample.env Spec.echo_delegate (Sample.requests_tool "call_cisco_agent" [])))))
           {| at_node := supervisor;
              self_ := Sample.graph (Sample.requests_tool "call_cisco_agent" []);
              messages := [HumanMessage "hello"] |}
           24%nat eq_refl)).
  - exact (proj2 (proj2 (proj2 (decisions_carry_no_tool_calls
             (Sample.env Spec.echo_delegate (Sample.requests_tool "call_cisco_agent" [])))))
           (Sample.env Sample.server_error (Sample.requests_tool "call_cisco_agent" []))
           24%nat (Sample.graph (Sample.requests_tool "call_cisco_agent" [])) "hello"
           eq_refl eq_refl).
Defined.

Lemma try_except_absorbs {A : Type} (b : outcome A) (x : A) (e : exn) :
  try_except_Exception b (fun _ => Return x) = Raise e -> is_Exception e = false.
Proof.
  destruct b as [a | e']; cbn; [discriminate |].
  destruct (is_Exception e') eqn:He'; [discriminate |].
  intros H. inversion H. now subst.
Qed.

Lemma run_outcome (E : Env) (fuel : nat) (g : SupervisorGraph.t) (m : string)
    (r : outcome string) :
  run E fuel g m = Some r ->
  (exists s, r = Return s) \/ (exists e, r = Raise e /\ is_Exception e = false).
Proof.
  unfold run. destruct (ainvoke E fuel g (run_initial_state m)); [| discriminate].
  intros H. injection H as <-.
  match goal with
  | |- (exists s, ?t = _) \/ _ => destruct t as [s | e] eqn:Ht
  end.
  - left. now exists s.
  - right. exists e. split; [reflexivity |]. exact (try_except_absorbs _ _ _ Ht).
Qed.



(** C5, at a failing input: the completion asks to delegate ["hello"] to
    [call_cisco_agent]; the state grows by one message, the agent text
    without the requested invocation, no tool result follows it, and the
    run ends with that text. *)
Theorem delegation_request_is_not_dispatched (fuel : nat) :
  let model :=
    Sample.requests_tool "call_cisco_agent" [("message", PStr "hello")] in
  let E := Sample.env Spec.echo_delegate model in
  invoke model (Spec.decision_input [HumanMessage "hello"])
    = Return (Sample.delegating "call_cisco_agent" [("message", PStr "hello")])
  /\ ainvoke E (S fuel) (Sample.graph model) (run_initial_state "hello")
     = Some (Return [HumanMessage "hello"; AIMessage ""])
  /\ run E (S fuel) (Sample.graph model) "hello" = Some (Return "")
  /\ call_cisco_agent E "hello" = Return (PStr "hello").
Proof.
  intros model E. split; [reflexivity |]. split; [| split].
  - rewrite ainvoke_from_user. reflexivity.
  - rewrite run_eq. reflexivity.
  - reflexivity.
Qed.

(** C6, at a failing input: the completion asks for [call_billing_agent],
    a tool outside the supervisor's tool list.  The request never comes to
    the tool node that [_build_graph] wires for dispatch: the final state
    holds the user message and an agent message with neither the request
    nor any text, no tool result stands in it, so no "agent not found"
    message either, and the run ends with the empty text. *)
Theorem unknown_tool_request_is_dropped (fuel : nat) :
  let model :=
    Sample.requests_tool "call_billing_agent" [("message", PStr "hello")] in
  let E := Sample.env Spec.echo_delegate model in
  existsb (fun t => String.eqb (tool_name t) "call_billing_agent") (tools E) = false
  /\ invoke model (Spec.decision_input [HumanMessage "hello"])
     = Return (Sample.delegating "call_billing_agent" [("message", PStr "hello")])
  /\ ainvoke E (S fuel) (Sample.graph model) (run_initial_state "hello")
     = Some (Return [HumanMessage "hello"; AIMessage ""])
  /\ Spec.dispatches [HumanMessage "hello"; AIMessage ""] = 0%nat
  /\ run E (S fuel) (Sample.graph model) "hello" = Some (Return "").
Proof.
  intros model E. split; [reflexivity |]. split; [reflexivity |].
  split; [| split].
  - rewrite ainvoke_from_user. reflexivity.
  - reflexivity.
  - rewrite run_eq. reflexivity.
Qed.




(** C9, at a failing entry point: [run] starts the graph on a message whose
    role is ["user"], which enters the state as a human message;
    [SupervisorAgent.execute] starts it on a message without a role, which
    is rejected before any state exists, and the error leaves [execute]. *)
Theorem execute_starts_without_a_role :
  (forall message : string,
     map d_role (run_initial_state message) = [Some "user"] /\
     convert_to_messages (run_initial_state message)
       = Return [HumanMessage message])
  /\
  (forall user_input : string,
     map d_role (SupervisorAgent.execute_initial_state user_input) = [None])
  /\
  (forall E fuel self user_input,
     SupervisorAgent.execute E fuel self user_input = Some (Raise ValueError)).
Proof.
  split; [| split]; intros; try split; reflexivity.
Qed.

(* ===================================================================== *)
(** * Further properties of the code *)
(* ===================================================================== *)

(** ** The command-line client *)

Lemma url_of_keys (E : Env) (agent : string) :
  Client.url_of agent (Client.AGENT_URLS E) =
  if String.eqb "cisco" agent then Some (CISCO_INTERSIGHT_AGENT_URL E)
  else if String.eqb "service-catalog" agent then Some (SERVICE_CATALOG_AGENT_URL E)
  else if String.eqb "supervisor" agent then Some "http://localhost:8000"
  else None.
Proof. reflexivity. Qed.

Lemma url_of_none (E : Env) (agent : string) :
  Client.url_of agent (Client.AGENT_URLS E) = None <->
  agent <> "cisco" /\ agent <> "service-catalog" /\ agent <> "supervisor".
Proof.
  rewrite url_of_keys.
  destruct (String.eqb_spec "cisco" agent) as [<- | H1].
  { split; [discriminate | intros [H _]; now elim H]. }
  destruct (String.eqb_spec "service-catalog" agent) as [<- | H2].
  { split; [discriminate | intros (_ & H & _); now elim H]. }
  destruct (String.eqb_spec "supervisor" agent) as [<- | H3].
  { split; [discriminate | intros (_ & _ & H); now elim H]. }
  split; [| reflexivity]. intros _. repeat split; congruence.
Qed.

(** X1: an agent name outside the registry is refused with [ValueError]
    before anything is sent: the result names the agent and the three
    registered ones, whatever the network would do. *)
Theorem send_message_unknown_agent
    (W : Client.World) (agent message : string) :
  agent <> "cisco" -> agent <> "service-catalog" -> agent <> "supervisor" ->
  Client.send_message W agent message =
  Client.Fail ValueError
    ("Unknown agent: " ++ agent
     ++ ". Available: ['cisco', 'service-catalog', 'supervisor']").
Proof.
  intros H1 H2 H3. unfold Client.send_message.
  now rewrite (proj2 (url_of_none (Client.env W) agent) (conj H1 (conj H2 H3))).
Qed.

Lemma on_error_class (W : Client.World) (agent url : string) (e : exn)
    (t : string) (e' : exn) (s : string) :
  Client.on_error W agent url e t = Client.Fail e' s ->
  e' = Client.ClickException \/ (e' = e /\ is_Exception e = false).
Proof.
  destruct e; cbn; intros H; inversion H; auto.
Qed.

Lemma on_error_fails (W : Client.World) (agent url : string) (e : exn) (t : string) :
  exists e' s, Client.on_error W agent url e t = Client.Fail e' s.
Proof. destruct e; cbn; eauto. Qed.

(** X2: the only [Exception]s that leave [send_message] are [ValueError],
    for an unregistered agent, and [click.ClickException]: every error of
    the HTTP exchange (connection, timeout, status, undecodable body) is
    turned into the latter. *)
Theorem send_message_raises_value_or_click
    (W : Client.World) (agent message : string) (e : exn) (s : string) :
  Client.send_message W agent message = Client.Fail e s ->
  is_Exception e = true ->
  (e = ValueError /\ Client.url_of agent (Client.AGENT_URLS (Client.env W)) = None)
  \/
  (e = Client.ClickException /\
   Client.url_of agent (Client.AGENT_URLS (Client.env W)) <> None).
Proof.
  unfold Client.send_message.
  destruct (Client.url_of agent (Client.AGENT_URLS (Client.env W))) as [url |].
  - intros H He. right. split; [| discriminate].
    repeat match type of H with
           | context [match ?x with _ => _ end] => destruct x
           end;
      try discriminate H;
      apply on_error_class in H as [-> | [-> Hn]]; auto; congruence.
  - intros H _. left. inversion H. auto.
Qed.

Lemma send_message_unknown_agent_witness :
  Client.send_message (Demo.world Spec.echo_delegate Demo.probe_delegates_up)
    "billing" "hello"
  = Client.Fail ValueError
      "Unknown agent: billing. Available: ['cisco', 'service-catalog', 'supervisor']".
Proof.
  apply (send_message_unknown_agent
           (Demo.world Spec.echo_delegate Demo.probe_delegates_up)
           "billing" "hello"); discriminate.
Defined.

Lemma send_message_raises_value_or_click_witness :
  Client.send_message (Demo.world Demo.refused Demo.probe_delegates_up)
    "cisco" "hello"
  = Client.Fail Client.ClickException
      "Error communicating with cisco agent: All connection attempts failed"
  /\ ((Client.ClickException = ValueError /\
       Client.url_of "cisco"
         (Client.AGENT_URLS
            (Client.env (Demo.world Demo.refused Demo.probe_delegates_up))) = None)
      \/
      (Client.ClickException = Client.ClickException /\
       Client.url_of "cisco"
         (Client.AGENT_URLS
            (Client.env (Demo.world Demo.refused Demo.probe_delegates_up))) <> None)).
Proof.
  split; [reflexivity |].
  exact (send_message_raises_value_or_click
           (Demo.world Demo.refused Demo.probe_delegates_up)
           "cisco" "hello" Client.ClickException
           "Error communicating with cisco agent: All connection attempts failed"
           eq_refl eq_refl).
Defined.

(** X3: for a registered agent, a timeout is reported with the agent and
    its address, a status outside 2xx with the status code and the raw text
    of the response (whose body is not decoded), and a 2xx response that is
    not JSON as a communication error. *)
Theorem send_message_failure_texts
    (W : Client.World) (agent message url : string) :
  Client.url_of agent (Client.AGENT_URLS (Client.env W)) = Some url ->
  let endpoint :=
    if String.eqb agent "supervisor" then url ++ "/agent/chat"
    else url ++ "/v1/messages" in
  let payload :=
    if String.eqb agent "supervisor" then PDict [("message", PStr message)]
    else Spec.request_envelope (agent ++ "_cli_call") "cli_message_1" message in
  (post (Client.env W) endpoint payload = Raise TimeoutException ->
   Client.send_message W agent message =
   Client.Fail Client.ClickException
     ("Timeout connecting to " ++ agent ++ " agent at " ++ url))
  /\
  (forall r,
     post (Client.env W) endpoint payload = Return r ->
     Spec.is_2xx (status_code r) = false ->
     Client.send_message W agent message =
     Client.Fail Client.ClickException
       ("HTTP " ++ Client.string_of_Z (status_code r) ++ " error from " ++ agent
        ++ " agent: " ++ Client.response_text W r))
  /\
  (forall r,
     post (Client.env W) endpoint payload = Return r ->
     Spec.is_2xx (status_code r) = true ->
     body r = None ->
     Client.send_message W agent message =
     Client.Fail Client.ClickException
       ("Error communicating with " ++ agent ++ " agent: "
        ++ Client.str_exn W JSONDecodeError))
  /\
  (forall r data,
     post (Client.env W) endpoint payload = Return r ->
     Spec.is_2xx (status_code r) = true ->
     body r = Some data ->
     Client.send_message W agent message = Client.Ok data).
Proof.
  intros Hurl endpoint payload. unfold Client.send_message. rewrite Hurl.
  fold endpoint. change (if String.eqb agent "supervisor"
                         then PDict [("message", PStr message)]
                         else _) with payload.
  repeat split.
  - intros ->. reflexivity.
  - intros r -> Hs. unfold raise_for_status, Spec.is_2xx in *. now rewrite Hs.
  - intros r -> Hs Hb. unfold raise_for_status, json, Spec.is_2xx in *.
    now rewrite Hs, Hb.
  - intros r data -> Hs Hb. unfold raise_for_status, json, Spec.is_2xx in *.
    now rewrite Hs, Hb.
Qed.

Lemma send_message_failure_texts_witness :
  Client.send_message (Demo.world Demo.timed_out Demo.probe_delegates_up)
    "service-catalog" "bye"
  = Client.Fail Client.ClickException
      "Timeout connecting to service-catalog agent at http://localhost:8001"
  /\ Client.send_message (Demo.world Sample.server_error Demo.probe_delegates_up)
       "supervisor" "hello"
     = Client.Fail Client.ClickException
         "HTTP 500 error from supervisor agent: Internal Server Error".
Proof.
  split.
  - exact (proj1 (send_message_failure_texts
             (Demo.world Demo.timed_out Demo.probe_delegates_up)
             "service-catalog" "bye" "http://localhost:8001" eq_refl) eq_refl).
  - exact (proj1 (proj2 (send_message_failure_texts
             (Demo.world Sample.server_error Demo.probe_delegates_up)
             "supervisor" "hello" "http://localhost:8000" eq_refl))
           {| status_code := 500; body := None |} eq_refl eq_refl).
Defined.

(** X4: sent to a delegate that echoes the text of the request, a message
    for ["cisco"] or ["service-catalog"] comes back unchanged from
    [send_message] followed by [extract_response_text]: the client's request
    and its reading of the reply fit the same wire format as the
    supervisor's tools. *)
Theorem client_round_trip
    (W : Client.World) (agent message : string) :
  agent = "cisco" \/ agent = "service-catalog" ->
  post (Client.env W) = Spec.echo_delegate ->
  Client.send_message W agent message = Client.Ok (Spec.success_response message [])
  /\ Client.extract_response_text agent (Spec.success_response message [])
     = Return (PStr message)
  /\ Client.exchange W agent message = Client.Ok (PStr message).
Proof.
  intros Ha Hecho.
  assert (Hs : Client.send_message W agent message
               = Client.Ok (Spec.success_response message [])).
  { unfold Client.send_message. rewrite Hecho.
    destruct Ha as [-> | ->]; reflexivity. }
  assert (He : Client.extract_response_text agent (Spec.success_response message [])
               = Return (PStr message)).
  { destruct Ha as [-> | ->]; reflexivity. }
  repeat split; trivial.
  unfold Client.exchange. now rewrite Hs, He.
Qed.

Lemma client_round_trip_witness :
  Client.exchange (Demo.world Spec.echo_delegate Demo.probe_delegates_up)
    "service-catalog" "bye"
  = Client.Ok (PStr "bye").
Proof.
  exact (proj2 (proj2 (client_round_trip
           (Demo.world Spec.echo_delegate Demo.probe_delegates_up)
           "service-catalog" "bye" (or_intror eq_refl) eq_refl))).
Defined.

Lemma not_supervisor (agent : string) :
  agent <> "supervisor" -> String.eqb agent "supervisor" = false.
Proof. intros H. now apply String.eqb_neq. Qed.

(** The reading of an a2a reply whose two keys are there. *)
Lemma extract_present (agent : string) entries inner ps :
  agent <> "supervisor" ->
  dict_lookup "message" entries = Some (PDict inner) ->
  dict_lookup "parts" inner = Some ps ->
  Client.extract_response_text agent (PDict entries) =
  (nonempty <- (if Client.py_truthy ps
                then n <- Client.py_len ps ;; Return (0 <? n)
                else Return false) ;;
   if nonempty
   then first <- py_getitem ps (PInt 0) ;;
        py_get first "text" (PStr "No text in response")
   else Return (PStr "Invalid response format from agent")).
Proof.
  intros Ha H1 H2. unfold Client.extract_response_text.
  rewrite (not_supervisor agent Ha).
  unfold py_in, py_getitem, dict_has. rewrite H1. cbn [bind]. rewrite H2.
  cbn [bind]. reflexivity.
Qed.

(** X5: on a reply [{message: {parts: [{text: v, ...}, ...]}}] the client's
    [extract_response_text] and the reading done by the supervisor's tools
    give the same value [v], of whatever JSON type. *)
Theorem client_and_tools_read_the_same_text
    (agent invalid_response : string)
    (entries inner fields : list (string * pyval)) (more : list pyval) (v : pyval) :
  agent <> "supervisor" ->
  dict_lookup "message" entries = Some (PDict inner) ->
  dict_lookup "parts" inner = Some (PList (PDict fields :: more)) ->
  dict_lookup "text" fields = Some v ->
  Client.extract_response_text agent (PDict entries) = Return v /\
  read_reply invalid_response (PDict entries) = Return v.
Proof.
  intros Ha H1 H2 H3. split.
  - rewrite (extract_present agent entries inner _ Ha H1 H2).
    cbn. now rewrite H3.
  - rewrite (read_reply_present invalid_response entries inner _ H1 H2).
    cbn. now rewrite H3.
Qed.

Lemma client_and_tools_read_the_same_text_witness :
  Client.extract_response_text "cisco"
    (PDict [("message", PDict [("parts", PList [PDict [("text", PNone)]])])])
  = Return PNone
  /\ read_reply cisco_invalid_response
       (PDict [("message", PDict [("parts", PList [PDict [("text", PNone)]])])])
     = Return PNone.
Proof.
  apply (client_and_tools_read_the_same_text "cisco" cisco_invalid_response
           [("message", PDict [("parts", PList [PDict [("text", PNone)]])])]
           [("parts", PList [PDict [("text", PNone)]])]
           [("text", PNone)] [] PNone);
    [discriminate | reflexivity | reflexivity | reflexivity].
Defined.

(** X6: where the tools differ from the client.  For an a2a reply with an
    empty [parts] list the client answers "Invalid response format from
    agent" without raising, while the reading of the tools raises
    [IndexError]; for a first part without [text] the client answers "No
    text in response" and the tools the empty string; for a reply without
    [message], or whose [message] object has no [parts], the client answers
    "Invalid response format from agent". *)
Theorem client_guards_degenerate_replies
    (agent invalid_response : string) (entries : list (string * pyval)) :
  agent <> "supervisor" ->
  (forall inner,
     dict_lookup "message" entries = Some (PDict inner) ->
     dict_lookup "parts" inner = Some (PList []) ->
     Client.extract_response_text agent (PDict entries)
       = Return (PStr "Invalid response format from agent") /\
     read_reply invalid_response (PDict entries) = Raise IndexError)
  /\
  (forall inner fields more,
     dict_lookup "message" entries = Some (PDict inner) ->
     dict_lookup "parts" inner = Some (PList (PDict fields :: more)) ->
     dict_lookup "text" fields = None ->
     Client.extract_response_text agent (PDict entries)
       = Return (PStr "No text in response") /\
     read_reply invalid_response (PDict entries) = Return (PStr ""))
  /\
  (dict_lookup "message" entries = None \/
   (exists inner, dict_lookup "message" entries = Some (PDict inner) /\
                  dict_lookup "parts" inner = None) ->
   Client.extract_response_text agent (PDict entries)
     = Return (PStr "Invalid response format from agent") /\
   read_reply invalid_response (PDict entries) = Return (PStr invalid_response)).
Proof.
  intros Ha. split; [| split].
  - intros inner H1 H2. split.
    + now rewrite (extract_present agent entries inner _ Ha H1 H2).
    + now rewrite (read_reply_present invalid_response entries inner _ H1 H2).
  - intros inner fields more H1 H2 H3. split.
    + rewrite (extract_present agent entries inner _ Ha H1 H2). cbn. now rewrite H3.
    + rewrite (read_reply_present invalid_response entries inner _ H1 H2).
      cbn. now rewrite H3.
  - intros [H1 | (inner & H1 & H2)];
      unfold Client.extract_response_text, read_reply;
      rewrite ?(not_supervisor agent Ha);
      unfold py_in, py_getitem, dict_has; rewrite H1; cbn [bind];
      rewrite ?H2; split; reflexivity.
Qed.

Lemma client_guards_degenerate_replies_witness :
  Client.extract_response_text "cisco"
    (PDict [("message", PDict [("parts", PList [])])])
  = Return (PStr "Invalid response format from agent")
  /\ Client.extract_response_text "cisco"
       (PDict [("message", PDict [("parts", PList [PDict [("kind", PStr "text")]])])])
     = Return (PStr "No text in response")
  /\ Client.extract_response_text "cisco" (PDict [("detail", PStr "Not Found")])
     = Return (PStr "Invalid response format from agent").
Proof.
  split; [| split].
  - refine (proj1 (proj1 (client_guards_degenerate_replies "cisco" ""
             [("message", PDict [("parts", PList [])])] _)
           [("parts", PList [])] eq_refl eq_refl)). discriminate.
  - refine (proj1 (proj1 (proj2 (client_guards_degenerate_replies "cisco" ""
             [("message", PDict [("parts", PList [PDict [("kind", PStr "text")]])])] _))
           [("parts", PList [PDict [("kind", PStr "text")]])]
           [("kind", PStr "text")] [] eq_refl eq_refl eq_refl)). discriminate.
  - refine (proj1 (proj2 (proj2 (client_guards_degenerate_replies "cisco" ""
             [("detail", PStr "Not Found")] _)) (or_introl eq_refl))). discriminate.
Defined.

(** X7: the registry, the descriptions and the capabilities have the same
    keys: an agent has an address exactly when it has a description other
    than "Unknown agent", and exactly when it has capabilities other than
    "Unknown capabilities". *)
Theorem registry_and_texts_have_the_same_keys (E : Env) (agent : string) :
  (Client.url_of agent (Client.AGENT_URLS E) <> None <->
   Client.get_agent_description agent <> "Unknown agent")
  /\
  (Client.url_of agent (Client.AGENT_URLS E) <> None <->
   Client.get_agent_capabilities agent <> "Unknown capabilities").
Proof.
  rewrite url_of_keys.
  unfold Client.get_agent_description, Client.get_agent_capabilities.
  cbn [Client.text_of Client.descriptions Client.capabilities].
  destruct (String.eqb "cisco" agent);
    [split; split; intros _; discriminate |].
  destruct (String.eqb "service-catalog" agent);
    [split; split; intros _; discriminate |].
  destruct (String.eqb "supervisor" agent);
    [split; split; intros _; discriminate |].
  split; split; intros H; now elim H.
Qed.

(** X8: the agent picked by ['switch'] in [interactive].  The answers 1, 2
    and 3 pick the agent shown under that number; the answers 0, -1 and -2
    are accepted too and pick the supervisor, service-catalog and cisco,
    as the index wraps around; every other answer, and one that is not a
    number, leaves the current agent and prints "Invalid choice". *)
Theorem switch_wraps_around
    (W : Client.World) (current_agent choice : string) :
  (forall n,
     Client.py_int W choice = Some n ->
     fst (Client.switch_agent W current_agent choice) =
     if (n =? 1) || (n =? -2) then "cisco"
     else if (n =? 2) || (n =? -1) then "service-catalog"
     else if (n =? 3) || (n =? 0) then "supervisor"
     else current_agent)
  /\
  (forall n,
     Client.py_int W choice = Some n ->
     n < -2 \/ 3 < n ->
     Client.switch_agent W current_agent choice
       = (current_agent, Client.Text "[bold red]Invalid choice[/bold red]"))
  /\
  (Client.py_int W choice = None ->
   Client.switch_agent W current_agent choice
     = (current_agent, Client.Text "[bold red]Invalid choice[/bold red]")).
Proof.
  assert (Hout : forall n, n < -2 \/ 3 < n ->
            seq_index (n - 1) (List.length ["cisco"; "service-catalog"; "supervisor"])
            = None).
  { intros n Hn. unfold seq_index. cbn [List.length].
    destruct (n - 1 <? 0) eqn:Hneg.
    - apply Z.ltb_lt in Hneg.
      replace (0 <=? Z.of_nat 3 + (n - 1)) with false; [reflexivity |].
      symmetry. apply Z.leb_gt. lia.
    - apply Z.ltb_ge in Hneg.
      replace (n - 1 <? Z.of_nat 3) with false; [now rewrite andb_false_r |].
      symmetry. apply Z.ltb_ge. lia. }
  split; [| split].
  - intros n Hn. unfold Client.switch_agent. rewrite Hn.
    assert (Hc : n < -2 \/ n = -2 \/ n = -1 \/ n = 0 \/ n = 1 \/ n = 2 \/ n = 3
                 \/ 3 < n) by lia.
    destruct Hc as [H | [-> | [-> | [-> | [-> | [-> | [-> | H]]]]]]];
      try reflexivity.
    + rewrite (Hout n (or_introl H)). cbn [fst].
      replace (n =? 1) with false by (symmetry; apply Z.eqb_neq; lia).
      replace (n =? -2) with false by (symmetry; apply Z.eqb_neq; lia).
      replace (n =? 2) with false by (symmetry; apply Z.eqb_neq; lia).
      replace (n =? -1) with false by (symmetry; apply Z.eqb_neq; lia).
      replace (n =? 3) with false by (symmetry; apply Z.eqb_neq; lia).
      replace (n =? 0) with false by (symmetry; apply Z.eqb_neq; lia).
      reflexivity.
    + rewrite (Hout n (or_intror H)). cbn [fst].
      replace (n =? 1) with false by (symmetry; apply Z.eqb_neq; lia).
      replace (n =? -2) with false by (symmetry; apply Z.eqb_neq; lia).
      replace (n =? 2) with false by (symmetry; apply Z.eqb_neq; lia).
      replace (n =? -1) with false by (symmetry; apply Z.eqb_neq; lia).
      replace (n =? 3) with false by (symmetry; apply Z.eqb_neq; lia).
      replace (n =? 0) with false by (symmetry; apply Z.eqb_neq; lia).
      reflexivity.
  - intros n Hn Hr. unfold Client.switch_agent. now rewrite Hn, (Hout n Hr).
  - intros Hn. unfold Client.switch_agent. now rewrite Hn.
Qed.

Lemma switch_wraps_around_witness :
  Client.switch_agent (Demo.world Spec.echo_delegate Demo.probe_delegates_up)
    "cisco" "0"
  = ("supervisor", Client.Text "[bold green]Switched to supervisor agent[/bold green]")
  /\ Client.switch_agent (Demo.world Spec.echo_delegate Demo.probe_delegates_up)
       "cisco" "4"
     = ("cisco", Client.Text "[bold red]Invalid choice[/bold red]")
  /\ Client.switch_agent (Demo.world Spec.echo_delegate Demo.probe_delegates_up)
       "cisco" "three"
     = ("cisco", Client.Text "[bold red]Invalid choice[/bold red]")
  /\ fst (Client.switch_agent (Demo.world Spec.echo_delegate Demo.probe_delegates_up)
            "cisco" "-1")
     = "service-catalog".
Proof.
  split; [reflexivity |]. split; [| split].
  - apply (proj1 (proj2 (switch_wraps_around
             (Demo.world Spec.echo_delegate Demo.probe_delegates_up) "cisco" "4"))
           4 eq_refl). right. reflexivity.
  - exact (proj2 (proj2 (switch_wraps_around
             (Demo.world Spec.echo_delegate Demo.probe_delegates_up) "cisco" "three"))
           eq_refl).
  - exact (proj1 (switch_wraps_around
             (Demo.world Spec.echo_delegate Demo.probe_delegates_up) "cisco" "-1")
           (-1) eq_refl).
Defined.

(** X9: the status table of the client has one row for each registered
    agent, in the order of the registry, with the agent's address; the
    delegates are probed at [/health] and the supervisor at [/docs]; a row
    says "Online" exactly when the probe was answered with status 200, and
    whatever the probe raises, an interrupt included, gives "Offline". *)
Theorem status_table_rows (W : Client.World) :
  (exists rows,
     Client.show_agent_status W = Client.Table rows /\
     map (fun r => (fst (fst r), snd (fst r))) rows = Client.AGENT_URLS (Client.env W) /\
     map snd rows =
       [ Client.agent_status W "cisco" (CISCO_INTERSIGHT_AGENT_URL (Client.env W));
         Client.agent_status W "service-catalog"
           (SERVICE_CATALOG_AGENT_URL (Client.env W));
         Client.agent_status W "supervisor" "http://localhost:8000" ])
  /\
  (forall agent url,
     let probe := if String.eqb agent "supervisor"
                  then url ++ "/docs" else url ++ "/health" in
     (Client.agent_status W agent url = "🟢 Online" <->
      exists r, Client.get W probe = Return r /\ status_code r = 200) /\
     (forall e, Client.get W probe = Raise e ->
                Client.agent_status W agent url = "🔴 Offline")).
Proof.
  split.
  - eexists. split; [reflexivity |]. split; reflexivity.
  - intros agent url probe. unfold Client.agent_status.
    replace (if negb (String.eqb agent "supervisor")
             then url ++ "/health" else url ++ "/docs") with probe
      by (unfold probe; now destruct (String.eqb agent "supervisor")).
    split.
    + destruct (Client.get W probe) as [r | e].
      * destruct (status_code r =? 200) eqn:Hs.
        -- split; [| reflexivity]. intros _. exists r. split; [reflexivity |].
           now apply Z.eqb_eq.
        -- split.
           ++ cbn. intros H. discriminate H.
           ++ intros (r' & Hr & H200). inversion Hr. subst r'.
              apply Z.eqb_neq in Hs. contradiction.
      * split; [cbn; intros H; discriminate H |].
        intros (r & Hr & _). discriminate Hr.
    + intros e ->. reflexivity.
Qed.

Lemma status_table_rows_witness :
  Client.show_agent_status (Demo.world Spec.echo_delegate Demo.probe_delegates_up)
  = Client.Table
      [ ("cisco", "http://localhost:8002", "🟢 Online");
        ("service-catalog", "http://localhost:8001", "🟢 Online");
        ("supervisor", "http://localhost:8000", "🔴 Offline") ]
  /\ Client.agent_status (Demo.world Spec.echo_delegate Demo.probe_delegates_up)
       "supervisor" "http://localhost:8000" = "🔴 Offline".
Proof.
  split; [reflexivity |].
  exact (proj2 (proj2 (status_table_rows
           (Demo.world Spec.echo_delegate Demo.probe_delegates_up))
           "supervisor" "http://localhost:8000") ConnectError eq_refl).
Defined.



(** ** The supervisor's web application *)

(** X11: [handle_message] never raises its [HTTPException]: [run] has
    already turned every [Exception] into a text, so the handler answers
    with [{"response": text}], the error text included, and its [except]
    branch is not taken. *)
Theorem handle_message_never_answers_500
    (E : Env) (fuel : nat) (g : SupervisorGraph.t) (request_message : string)
    (r : outcome pyval) :
  SupervisorApp.handle_message E fuel g request_message = Some r ->
  r <> Raise SupervisorApp.HTTPException /\
  ((exists s, run E fuel g request_message = Some (Return s) /\
              r = Return (PDict [("response", PStr s)]))
   \/ (exists e, run E fuel g request_message = Some (Raise e) /\
                 r = Raise e /\ is_Exception e = false)).
Proof.
  unfold SupervisorApp.handle_message.
  destruct (run E fuel g request_message) as [ran |] eqn:Hrun; [| discriminate].
  intros H. injection H as <-.
  destruct (run_outcome E fuel g request_message ran Hrun) as [[s ->] | (e & -> & He)].
  - split; [discriminate |]. left. now exists s.
  - cbn. rewrite He. split.
    + intros H. inversion H. subst e. discriminate He.
    + right. now exists e.
Qed.

Lemma handle_message_never_answers_500_witness :
  SupervisorApp.handle_message
    (Sample.env Spec.echo_delegate (Sample.answers "")) 25
    (Sample.graph Sample.unreachable_model) "hello"
  = Some (Return (PDict [("response",
            PStr "An error occurred while processing your request.")]))
  /\ Return (PDict [("response",
       PStr "An error occurred while processing your request.")])
     <> Raise SupervisorApp.HTTPException.
Proof.
  split; [reflexivity |].
  exact (proj1 (handle_message_never_answers_500
           (Sample.env Spec.echo_delegate (Sample.answers "")) 25
           (Sample.graph Sample.unreachable_model) "hello"
           (Return (PDict [("response",
              PStr "An error occurred while processing your request.")]))
           eq_refl)).
Defined.




(** ** The Cisco Intersight agent *)

Lemma greeting_run_eq (E : Env) (self : CiscoIntersightAgent.t) (m : string) :
  CiscoIntersightAgent.run E self m =
  try_except_Exception
    (l <- match CiscoIntersightAgent.llm self with
          | Some l => Return l
          | None => get_llm E
          end ;;
     response <- invoke l [HumanMessage (CiscoIntersightAgent.prompt_before ++ m
                                         ++ CiscoIntersightAgent.prompt_after)] ;;
     Return (content response))
    (fun _ => Return "An error occurred while processing your request.").
Proof.
  unfold CiscoIntersightAgent.run, CiscoIntersightAgent.ainvoke,
    CiscoIntersightAgent._greeting.
  cbn [add_messages app rev content HumanMessage].
  f_equal.
  destruct (match CiscoIntersightAgent.llm self with
            | Some l => Return l
            | None => get_llm E
            end) as [l |]; [| reflexivity].
  cbn [bind]. destruct (invoke l _) as [r |]; reflexivity.
Qed.

(** X13: the delegate's [run].  The model is given one human message, the
    prompt template with the user's message in the place of [{message}];
    when it answers, [run] returns the text of the answer; when it, or the
    making of the model handle, raises an [Exception], [run] returns "An
    error occurred while processing your request."; and [run] raises no
    [Exception] itself. *)
Theorem delegate_run_returns_answer_or_error_text
    (E : Env) (self : CiscoIntersightAgent.t) (m : string) :
  (forall l response,
     CiscoIntersightAgent.llm self = Some l ->
     invoke l [HumanMessage (CiscoIntersightAgent.prompt_before ++ m
                             ++ CiscoIntersightAgent.prompt_after)]
       = Return response ->
     CiscoIntersightAgent.run E self m = Return (content response))
  /\
  (forall l e,
     CiscoIntersightAgent.llm self = Some l ->
     invoke l [HumanMessage (CiscoIntersightAgent.prompt_before ++ m
                             ++ CiscoIntersightAgent.prompt_after)]
       = Raise e ->
     is_Exception e = true ->
     CiscoIntersightAgent.run E self m
       = Return "An error occurred while processing your request.")
  /\
  (CiscoIntersightAgent.llm self = None ->
   LLM_PROVIDER E <> "openai" ->
   CiscoIntersightAgent.run E self m
     = Return "An error occurred while processing your request.")
  /\
  (forall e, CiscoIntersightAgent.run E self m = Raise e -> is_Exception e = false).
Proof.
  rewrite greeting_run_eq. repeat split.
  - intros l r -> Hr. cbn [bind]. now rewrite Hr.
  - intros l e -> Hr He. cbn [bind]. rewrite Hr. cbn. now rewrite He.
  - intros -> Hp. unfold get_llm.
    apply String.eqb_neq in Hp. now rewrite Hp.
  - intros e. apply try_except_absorbs.
Qed.

Lemma delegate_run_returns_answer_or_error_text_witness :
  CiscoIntersightAgent.run (Sample.env Spec.echo_delegate (Sample.answers ""))
    {| CiscoIntersightAgent.llm := Some (Sample.answers "Hello from Intersight.") |}
    "hello"
  = Return "Hello from Intersight."
  /\ CiscoIntersightAgent.run (Sample.env Spec.echo_delegate (Sample.answers ""))
       {| CiscoIntersightAgent.llm := Some Sample.unreachable_model |} "hello"
     = Return "An error occurred while processing your request."
  /\ CiscoIntersightAgent.run
       (Sample.with_provider "anthropic"
          (Sample.env Spec.echo_delegate (Sample.answers "")))
       {| CiscoIntersightAgent.llm := None |} "hello"
     = Return "An error occurred while processing your request."
  /\ is_Exception KeyboardInterrupt = false.
Proof.
  split; [| split; [| split]].
  - exact (proj1 (delegate_run_returns_answer_or_error_text
             (Sample.env Spec.echo_delegate (Sample.answers ""))
             {| CiscoIntersightAgent.llm := Some (Sample.answers "Hello from Intersight.") |}
             "hello")
           (Sample.answers "Hello from Intersight.")
           (AIMessage "Hello from Intersight.") eq_refl eq_refl).
  - exact (proj1 (proj2 (delegate_run_returns_answer_or_error_text
             (Sample.env Spec.echo_delegate (Sample.answers ""))
             {| CiscoIntersightAgent.llm := Some Sample.unreachable_model |} "hello"))
           Sample.unreachable_model (OtherException "APIConnectionError")
           eq_refl eq_refl eq_refl).
  - refine (proj1 (proj2 (proj2 (delegate_run_returns_answer_or_error_text
             (Sample.with_provider "anthropic"
                (Sample.env Spec.echo_delegate (Sample.answers "")))
             {| CiscoIntersightAgent.llm := None |} "hello"))) eq_refl _).
    discriminate.
  - exact (proj2 (proj2 (proj2 (delegate_run_returns_answer_or_error_text
             (Sample.env Spec.echo_delegate (Sample.answers ""))
             {| CiscoIntersightAgent.llm := Some Sample.interrupted_model |} "hello")))
           KeyboardInterrupt eq_refl).
Defined.

(** X14: the delegate's executor puts exactly one message on the queue
    whenever it returns: an agent message that carries the card's name and,
    as its single text part, the result of [run], which is the error text
    when the model failed.  Its own [except] branch, which would put
    nothing on the queue, is not taken. *)
Theorem executor_enqueues_one_message
    (E : Env) (uuid : string) (self : CiscoIntersightAgentExecutor.t)
    (prompt : string) (events : list CiscoIntersightAgentExecutor.AgentMessage) :
  CiscoIntersightAgentExecutor.execute E uuid self prompt = Return events ->
  exists result,
    CiscoIntersightAgent.run E (CiscoIntersightAgentExecutor.agent self) prompt
      = Return result /\
    events =
    [ {| CiscoIntersightAgentExecutor.role := A2A.agent;
         CiscoIntersightAgentExecutor.message_id := uuid;
         CiscoIntersightAgentExecutor.metadata := [("name", "Cisco Intersight Agent")];
         CiscoIntersightAgentExecutor.parts :=
           [ {| root := {| text := result |} |} ] |} ].
Proof.
  unfold CiscoIntersightAgentExecutor.execute.
  destruct (CiscoIntersightAgent.run E (CiscoIntersightAgentExecutor.agent self) prompt)
    as [result | e] eqn:Hrun.
  - cbn. intros H. inversion H. now exists result.
  - rewrite greeting_run_eq in Hrun. apply try_except_absorbs in Hrun.
    cbn. rewrite Hrun. discriminate.
Qed.

Lemma executor_enqueues_one_message_witness :
  exists result,
    CiscoIntersightAgent.run (Sample.env Spec.echo_delegate (Sample.answers ""))
      {| CiscoIntersightAgent.llm := Some Sample.unreachable_model |} "hello"
      = Return result /\
    [ {| CiscoIntersightAgentExecutor.role := A2A.agent;
         CiscoIntersightAgentExecutor.message_id := "6f1c";
         CiscoIntersightAgentExecutor.metadata := [("name", "Cisco Intersight Agent")];
         CiscoIntersightAgentExecutor.parts :=
           [ {| root :=
                  {| text := "An error occurred while processing your request." |} |} ] |} ]
    =
    [ {| CiscoIntersightAgentExecutor.role := A2A.agent;
         CiscoIntersightAgentExecutor.message_id := "6f1c";
         CiscoIntersightAgentExecutor.metadata := [("name", "Cisco Intersight Agent")];
         CiscoIntersightAgentExecutor.parts := [ {| root := {| text := result |} |} ] |} ].
Proof.
  exact (executor_enqueues_one_message
           (Sample.env Spec.echo_delegate (Sample.answers "")) "6f1c"
           {| CiscoIntersightAgentExecutor.agent :=
                {| CiscoIntersightAgent.llm := Some Sample.unreachable_model |} |}
           "hello" _ eq_refl).
Defined.

(** ** The process manager *)



(** X16: the status table of the manager goes by position, not by agent.
    When the Cisco Intersight agent cannot be spawned while the two others
    start and keep running, [self.processes] holds the two others, and the
    table reports Cisco Intersight and Service Catalog as running and the
    Supervisor as stopped. *)
Theorem manager_status_goes_by_position
    (W : MultiAgentSystem.World) (e : exn) (p2 p3 : MultiAgentSystem.Process) :
  MultiAgentSystem.Popen W
    [MultiAgentSystem.python_exe W; "-m"; "agents.cisco_intersight.server"] = Raise e ->
  is_Exception e = true ->
  MultiAgentSystem.Popen W
    [MultiAgentSystem.python_exe W; "-m"; "agents.service_catalog.server"] = Return p2 ->
  MultiAgentSystem.Popen W
    [MultiAgentSystem.python_exe W; "-m"; "agents.supervisor.main"] = Return p3 ->
  MultiAgentSystem.poll_at_start W p2 = Return None ->
  MultiAgentSystem.poll_at_start W p3 = Return None ->
  MultiAgentSystem.poll_at_status W p2 = Return None ->
  MultiAgentSystem.poll_at_status W p3 = Return None ->
  MultiAgentSystem.processes
    (MultiAgentSystem.start_each W [] MultiAgentSystem.agents) = [p2; p3]
  /\ MultiAgentSystem.value
       (MultiAgentSystem.start_each W [] MultiAgentSystem.agents) = Return tt
  /\ MultiAgentSystem._show_status W [p2; p3] =
     Return [ ("Cisco Intersight", "8002", "http://localhost:8002", "🟢 Running");
              ("Service Catalog", "8001", "http://localhost:8001", "🟢 Running");
              ("Supervisor", "8000", "http://localhost:8000", "🔴 Stopped") ].
Proof.
  intros H1 He H2 H3 Hs2 Hs3 Ht2 Ht3.
  assert (E1 : exists con,
            MultiAgentSystem.start_agent W [] "Cisco Intersight"
              "agents.cisco_intersight.server" 8002
            = {| MultiAgentSystem.processes := [];
                 MultiAgentSystem.console := con;
                 MultiAgentSystem.value := Return None |}).
  { unfold MultiAgentSystem.start_agent. rewrite H1, He. eauto. }
  assert (E2 : exists con,
            MultiAgentSystem.start_agent W [] "Service Catalog"
              "agents.service_catalog.server" 8001
            = {| MultiAgentSystem.processes := [p2];
                 MultiAgentSystem.console := con;
                 MultiAgentSystem.value := Return (Some p2) |}).
  { unfold MultiAgentSystem.start_agent. rewrite H2, Hs2. eauto. }
  assert (E3 : exists con,
            MultiAgentSystem.start_agent W [p2] "Supervisor"
              "agents.supervisor.main" 8000
            = {| MultiAgentSystem.processes := [p2; p3];
                 MultiAgentSystem.console := con;
                 MultiAgentSystem.value := Return (Some p3) |}).
  { unfold MultiAgentSystem.start_agent. rewrite H3, Hs3. eauto. }
  destruct E1 as [c1 E1], E2 as [c2 E2], E3 as [c3 E3].
  assert (Hrun : MultiAgentSystem.processes
                   (MultiAgentSystem.start_each W [] MultiAgentSystem.agents)
                 = [p2; p3] /\
                 MultiAgentSystem.value
                   (MultiAgentSystem.start_each W [] MultiAgentSystem.agents)
                 = Return tt).
  { unfold MultiAgentSystem.agents. cbn [MultiAgentSystem.start_each].
    rewrite E1. cbn [MultiAgentSystem.value MultiAgentSystem.processes].
    rewrite E2. cbn [MultiAgentSystem.value MultiAgentSystem.processes].
    rewrite E3. cbn [MultiAgentSystem.value MultiAgentSystem.processes].
    split; reflexivity. }
  split; [exact (proj1 Hrun) | split; [exact (proj2 Hrun) |]].
  unfold MultiAgentSystem._show_status, MultiAgentSystem.agents_info.
  cbn [MultiAgentSystem.status_rows nth_error]. rewrite Ht2, Ht3. reflexivity.
Qed.

Lemma manager_status_goes_by_position_witness :
  MultiAgentSystem._show_status (Demo.system (Return tt))
    (MultiAgentSystem.processes
       (MultiAgentSystem.start_each (Demo.system (Return tt)) []
          MultiAgentSystem.agents))
  = Return [ ("Cisco Intersight", "8002", "http://localhost:8002", "🟢 Running");
             ("Service Catalog", "8001", "http://localhost:8001", "🟢 Running");
             ("Supervisor", "8000", "http://localhost:8000", "🔴 Stopped") ].
Proof.
  destruct (manager_status_goes_by_position (Demo.system (Return tt))
              (OtherException "FileNotFoundError")
              Demo.catalog_process Demo.supervisor_process
              eq_refl eq_refl eq_refl eq_refl eq_refl eq_refl eq_refl eq_refl)
    as (Hp & _ & Ht).
  rewrite Hp. exact Ht.
Defined.

Lemma stop_each_app (W : MultiAgentSystem.World)
    (before after : list MultiAgentSystem.Process) :
  MultiAgentSystem.stop_each W (before ++ after) =
  match MultiAgentSystem.stop_each W before with
  | (done, Some e) => (done, Some e)
  | (done, None) =>
      ((done ++ fst (MultiAgentSystem.stop_each W after))%list,
       snd (MultiAgentSystem.stop_each W after))
  end.
Proof.
  induction before as [| p rest IH].
  - cbn. now destruct (MultiAgentSystem.stop_each W after).
  - cbn [app MultiAgentSystem.stop_each].
    destruct (MultiAgentSystem.stop_one W p) as [d [e |]]; [reflexivity |].
    rewrite IH.
    destruct (MultiAgentSystem.stop_each W rest) as [d' [e |]]; cbn [fst snd];
      [reflexivity |].
    now rewrite app_assoc.
Qed.

Lemma stop_one_clean (W : MultiAgentSystem.World) (p : MultiAgentSystem.Process) :
  (exists u, MultiAgentSystem.kill W p = Return u) ->
  (forall e, MultiAgentSystem.terminate W p = Raise e -> is_Exception e = true) ->
  (forall e, MultiAgentSystem.wait W p = Raise e -> is_Exception e = true) ->
  exists done,
    MultiAgentSystem.stop_one W p = (MultiAgentSystem.Terminate p :: done, None).
Proof.
  intros [u Hk] Ht Hw. unfold MultiAgentSystem.stop_one. rewrite Hk.
  destruct (MultiAgentSystem.terminate W p) as [[] | e] eqn:Hterm.
  - destruct (MultiAgentSystem.wait W p) as [[] | e] eqn:Hwait; [eauto |].
    rewrite (Hw e eq_refl).
    destruct (MultiAgentSystem.is_TimeoutExpired e); cbn; eauto.
  - rewrite (Ht e eq_refl).
    destruct (MultiAgentSystem.is_TimeoutExpired e); cbn; eauto.
Qed.

Lemma stop_each_clean (W : MultiAgentSystem.World)
    (ps : list MultiAgentSystem.Process) :
  (forall p, In p ps -> exists u, MultiAgentSystem.kill W p = Return u) ->
  (forall p e, In p ps ->
     MultiAgentSystem.terminate W p = Raise e -> is_Exception e = true) ->
  (forall p e, In p ps ->
     MultiAgentSystem.wait W p = Raise e -> is_Exception e = true) ->
  snd (MultiAgentSystem.stop_each W ps) = None /\
  (forall p, In p ps ->
     In (MultiAgentSystem.Terminate p) (fst (MultiAgentSystem.stop_each W ps))).
Proof.
  induction ps as [| q rest IH]; intros Hk Ht Hw.
  - split; [reflexivity | intros p []].
  - destruct (stop_one_clean W q (Hk q (or_introl eq_refl))
                (fun e => Ht q e (or_introl eq_refl))
                (fun e => Hw q e (or_introl eq_refl))) as [done Hq].
    destruct IH as [IHn IHin].
    { intros p Hp. apply Hk. now right. }
    { intros p e Hp. apply Ht. now right. }
    { intros p e Hp. apply Hw. now right. }
    cbn [MultiAgentSystem.stop_each]. rewrite Hq. cbn [fst snd].
    split; [exact IHn |].
    intros p [<- | Hp]; [now left |].
    right. apply in_or_app. right. now apply IHin.
Qed.

(** X17: [stop_all_agents] ends every process and forgets them all, when
    killing does not fail and stopping raises nothing but [Exception]s: each
    recorded process is asked to terminate, [self.processes] is empty
    afterwards, and "All agents stopped." is printed. *)
Theorem stop_all_agents_clears_processes
    (W : MultiAgentSystem.World) (ps : list MultiAgentSystem.Process) :
  (forall p, In p ps -> exists u, MultiAgentSystem.kill W p = Return u) ->
  (forall p e, In p ps ->
     MultiAgentSystem.terminate W p = Raise e -> is_Exception e = true) ->
  (forall p e, In p ps ->
     MultiAgentSystem.wait W p = Raise e -> is_Exception e = true) ->
  snd (MultiAgentSystem.stop_all_agents W ps) =
    {| MultiAgentSystem.processes := [];
       MultiAgentSystem.console := ["[green]All agents stopped.[/green]"];
       MultiAgentSystem.value := Return tt |}
  /\
  (forall p, In p ps ->
     In (MultiAgentSystem.Terminate p) (fst (MultiAgentSystem.stop_all_agents W ps))).
Proof.
  intros Hk Ht Hw.
  destruct (stop_each_clean W ps Hk Ht Hw) as [Hn Hin].
  unfold MultiAgentSystem.stop_all_agents.
  destruct (MultiAgentSystem.stop_each W ps) as [done [e |]] eqn:Hs;
    [discriminate Hn |].
  split; [reflexivity | exact Hin].
Qed.

Lemma stop_all_agents_clears_processes_witness :
  MultiAgentSystem.stop_all_agents (Demo.system (Return tt))
    [Demo.catalog_process; Demo.supervisor_process]
  = ([ MultiAgentSystem.Terminate Demo.catalog_process;
       MultiAgentSystem.Wait Demo.catalog_process;
       MultiAgentSystem.Kill Demo.catalog_process;
       MultiAgentSystem.Terminate Demo.supervisor_process;
       MultiAgentSystem.Wait Demo.supervisor_process;
       MultiAgentSystem.Kill Demo.supervisor_process ],
     {| MultiAgentSystem.processes := [];
        MultiAgentSystem.console := ["[green]All agents stopped.[/green]"];
        MultiAgentSystem.value := Return tt |})
  /\ snd (MultiAgentSystem.stop_all_agents (Demo.system (Return tt))
            [Demo.catalog_process; Demo.supervisor_process])
     = {| MultiAgentSystem.processes := [];
          MultiAgentSystem.console := ["[green]All agents stopped.[/green]"];
          MultiAgentSystem.value := Return tt |}.
Proof.
  split; [reflexivity |].
  apply (stop_all_agents_clears_processes (Demo.system (Return tt))
           [Demo.catalog_process; Demo.supervisor_process]).
  - intros p _. exists tt. reflexivity.
  - intros p e _ H. discriminate H.
  - intros p e _ H. cbn in H. inversion H. reflexivity.
Defined.

(** X18: a kill that fails aborts the shutdown.  When a process does not
    stop within the timeout and killing it raises, of whatever class, the
    exception leaves [stop_all_agents]: the processes after it in the list
    are not asked to terminate, and [self.processes] is not cleared. *)
Theorem failed_kill_aborts_shutdown
    (W : MultiAgentSystem.World)
    (before after : list MultiAgentSystem.Process)
    (p : MultiAgentSystem.Process) (e : exn) :
  snd (MultiAgentSystem.stop_each W before) = None ->
  MultiAgentSystem.terminate W p = Return tt ->
  MultiAgentSystem.wait W p = Raise MultiAgentSystem.TimeoutExpired ->
  MultiAgentSystem.kill W p = Raise e ->
  MultiAgentSystem.stop_all_agents W (before ++ p :: after) =
  ((fst (MultiAgentSystem.stop_each W before)
    ++ [MultiAgentSystem.Terminate p; MultiAgentSystem.Wait p; MultiAgentSystem.Kill p])%list,
   {| MultiAgentSystem.processes := (before ++ p :: after)%list;
      MultiAgentSystem.console := [];
      MultiAgentSystem.value := Raise e |}).
Proof.
  intros Hb Ht Hw Hk. unfold MultiAgentSystem.stop_all_agents.
  rewrite stop_each_app.
  destruct (MultiAgentSystem.stop_each W before) as [done [e' |]];
    [discriminate Hb |].
  cbn [MultiAgentSystem.stop_each fst snd].
  unfold MultiAgentSystem.stop_one. rewrite Ht, Hw, Hk. reflexivity.
Qed.

Lemma failed_kill_aborts_shutdown_witness :
  MultiAgentSystem.stop_all_agents
    (Demo.system (Raise (OtherException "PermissionError")))
    [Demo.catalog_process; Demo.supervisor_process]
  = ([ MultiAgentSystem.Terminate Demo.catalog_process;
       MultiAgentSystem.Wait Demo.catalog_process;
       MultiAgentSystem.Kill Demo.catalog_process ],
     {| MultiAgentSystem.processes := [Demo.catalog_process; Demo.supervisor_process];
        MultiAgentSystem.console := [];
        MultiAgentSystem.value := Raise (OtherException "PermissionError") |}).
Proof.
  exact (failed_kill_aborts_shutdown
           (Demo.system (Raise (OtherException "PermissionError")))
           [] [Demo.supervisor_process] Demo.catalog_process
           (OtherException "PermissionError") eq_refl eq_refl eq_refl eq_refl).
Defined.

(** ** The supervisor's tools, continued *)

(** X19: which of the two texts a tool gives.  Everything that goes wrong
    before the body is decoded gives the empty string: an [Exception] raised
    by the request (connection, timeout), a status outside 2xx, a 2xx
    response that is not JSON.  A decoded 2xx body without [message], or
    whose [message] object has no [parts], gives the "did not return a valid
    response" text.  And a tool that gives that text has been answered with
    a 2xx status and a JSON body. *)
Theorem transport_failures_give_empty_string (E : Env) (message : string) :
  (forall o : outcome Response,
     (exists e, o = Raise e /\ is_Exception e = true) \/
     (exists r, o = Return r /\ Spec.is_2xx (status_code r) = false) \/
     (exists r, o = Return r /\ Spec.is_2xx (status_code r) = true /\ body r = None) ->
     (post E (Spec.cisco_url E) (Spec.cisco_request E message) = o ->
      call_cisco_agent E message = Return (PStr "")) /\
     (post E (Spec.service_catalog_url E) (Spec.service_catalog_request E message) = o ->
      call_service_catalog_agent E message = Return (PStr "")))
  /\
  (forall r entries,
     Spec.is_2xx (status_code r) = true ->
     body r = Some (PDict entries) ->
     dict_lookup "message" entries = None \/
     (exists inner, dict_lookup "message" entries = Some (PDict inner) /\
                    dict_lookup "parts" inner = None) ->
     (post E (Spec.cisco_url E) (Spec.cisco_request E message) = Return r ->
      call_cisco_agent E message = Return (PStr cisco_invalid_response)) /\
     (post E (Spec.service_catalog_url E) (Spec.service_catalog_request E message)
        = Return r ->
      call_service_catalog_agent E message
        = Return (PStr service_catalog_invalid_response)))
  /\
  (call_cisco_agent E message = Return (PStr cisco_invalid_response) ->
   exists r data,
     post E (Spec.cisco_url E) (Spec.cisco_request E message) = Return r /\
     Spec.is_2xx (status_code r) = true /\ body r = Some data)
  /\
  (call_service_catalog_agent E message
     = Return (PStr service_catalog_invalid_response) ->
   exists r data,
     post E (Spec.service_catalog_url E) (Spec.service_catalog_request E message)
       = Return r /\
     Spec.is_2xx (status_code r) = true /\ body r = Some data).
Proof.
  assert (Hfail : forall inv (o : outcome Response),
            (exists e, o = Raise e /\ is_Exception e = true) \/
            (exists r, o = Return r /\ Spec.is_2xx (status_code r) = false) \/
            (exists r, o = Return r /\ Spec.is_2xx (status_code r) = true
                       /\ body r = None) ->
            Spec.tool_result inv o = Return (PStr "")).
  { intros inv o [(e & -> & He) | [(r & -> & Hs) | (r & -> & Hs & Hb)]];
      unfold Spec.tool_result, raise_for_status, json, Spec.is_2xx in *; cbn [bind].
    - cbn. now rewrite He.
    - now rewrite Hs.
    - now rewrite Hs, Hb. }
  assert (Hmiss : forall inv r entries,
            Spec.is_2xx (status_code r) = true ->
            body r = Some (PDict entries) ->
            dict_lookup "message" entries = None \/
            (exists inner, dict_lookup "message" entries = Some (PDict inner) /\
                           dict_lookup "parts" inner = None) ->
            Spec.tool_result inv (Return r) = Return (PStr inv)).
  { intros inv r entries Hs Hb Hm.
    rewrite (tool_result_decoded inv r _ Hs Hb).
    unfold read_reply, py_in, py_getitem, dict_has.
    destruct Hm as [H1 | (inner & H1 & H2)]; rewrite H1; cbn [bind];
      rewrite ?H2; reflexivity. }
  assert (Hback : forall inv (o : outcome Response),
            inv <> "" ->
            Spec.tool_result inv o = Return (PStr inv) ->
            exists r data,
              o = Return r /\ Spec.is_2xx (status_code r) = true /\ body r = Some data).
  { intros inv o Hne Hres.
    destruct o as [r | e].
    - destruct (Spec.is_2xx (status_code r)) eqn:Hs.
      + destruct (body r) as [data |] eqn:Hb; [now exists r, data |].
        rewrite Hfail in Hres; [congruence |].
        right. right. now exists r.
      + rewrite Hfail in Hres; [congruence |].
        right. left. now exists r.
    - destruct (is_Exception e) eqn:He.
      + rewrite Hfail in Hres; [congruence |]. left. now exists e.
      + unfold Spec.tool_result in Hres. cbn in Hres. rewrite He in Hres.
        discriminate Hres. }
  split; [| split; [| split]].
  - intros o Ho. split; intros Hpost.
    + rewrite call_cisco_agent_eq, Hpost. now apply Hfail.
    + rewrite call_service_catalog_agent_eq, Hpost. now apply Hfail.
  - intros r entries Hs Hb Hm. split; intros Hpost.
    + rewrite call_cisco_agent_eq, Hpost. now apply Hmiss with (entries := entries).
    + rewrite call_service_catalog_agent_eq, Hpost.
      now apply Hmiss with (entries := entries).
  - rewrite call_cisco_agent_eq. apply Hback. discriminate.
  - rewrite call_service_catalog_agent_eq. apply Hback. discriminate.
Qed.

Lemma transport_failures_give_empty_string_witness :
  call_cisco_agent (Sample.env Sample.server_error (Sample.answers "")) "hello"
    = Return (PStr "")
  /\ call_service_catalog_agent
       (Sample.env (Sample.replies (PDict [("detail", PStr "Not Found")]))
                   (Sample.answers "")) "bye"
     = Return (PStr "Service Catalog Agent did not return a valid response.")
  /\ exists r data,
       Sample.replies (PDict [("detail", PStr "Not Found")])
         (Spec.cisco_url (Sample.env (Sample.replies (PDict [("detail", PStr "Not Found")]))
                                     (Sample.answers "")))
         (Spec.cisco_request
            (Sample.env (Sample.replies (PDict [("detail", PStr "Not Found")]))
                        (Sample.answers "")) "hello")
       = Return r
       /\ Spec.is_2xx (status_code r) = true /\ body r = Some data.
Proof.
  split; [| split].
  - refine (proj1 (proj1 (transport_failures_give_empty_string
             (Sample.env Sample.server_error (Sample.answers "")) "hello")
             (Return {| status_code := 500; body := None |}) _) eq_refl).
    right. left. eexists. split; reflexivity.
  - exact (proj2 (proj1 (proj2 (transport_failures_give_empty_string
             (Sample.env (Sample.replies (PDict [("detail", PStr "Not Found")]))
                         (Sample.answers "")) "bye"))
             {| status_code := 200; body := Some (PDict [("detail", PStr "Not Found")]) |}
             [("detail", PStr "Not Found")] eq_refl eq_refl (or_introl eq_refl))
           eq_refl).
  - exact (proj1 (proj2 (proj2 (transport_failures_give_empty_string
             (Sample.env (Sample.replies (PDict [("detail", PStr "Not Found")]))
                         (Sample.answers "")) "hello")))
           eq_refl).
Defined.

Lemma registry_and_texts_have_the_same_keys_witness :
  Client.get_agent_description "service-catalog" <> "Unknown agent"
  /\ Client.url_of "billing"
       (Client.AGENT_URLS (Sample.env Spec.echo_delegate (Sample.answers ""))) = None.
Proof.
  split.
  - apply (proj1 (proj1 (registry_and_texts_have_the_same_keys
             (Sample.env Spec.echo_delegate (Sample.answers "")) "service-catalog"))).
    discriminate.
  - destruct (Client.url_of "billing"
                (Client.AGENT_URLS (Sample.env Spec.echo_delegate (Sample.answers ""))))
      as [u |] eqn:Hu; [| reflexivity].
    exfalso.
    apply (proj1 (proj2 (registry_and_texts_have_the_same_keys
             (Sample.env Spec.echo_delegate (Sample.answers "")) "billing")));
      [rewrite Hu; discriminate | reflexivity].
Defined.

(** ** The interactive session and the manager's status command *)



(** X21: the two status checks compared, for the same probe.  When the
    probe is answered they print the same status; when the connection is
    refused both say "Offline"; for any other [Exception], a timeout for
    one, the manager's [status] says "Error: ..." where the client says
    "Offline"; and what is not an [Exception] ends the manager's command
    while the client still says "Offline". *)
Theorem manager_and_client_status
    (W : Client.World) (str20 : exn -> string) (name agent url : string) :
  String.eqb name "Supervisor" = String.eqb agent "supervisor" ->
  let probe := if String.eqb agent "supervisor"
               then url ++ "/docs" else url ++ "/health" in
  (forall r, Client.get W probe = Return r ->
     Main.agent_status (Client.get W) str20 name url
       = Return (Client.agent_status W agent url))
  /\
  (Client.get W probe = Raise ConnectError ->
   Main.agent_status (Client.get W) str20 name url = Return "🔴 Offline" /\
   Client.agent_status W agent url = "🔴 Offline")
  /\
  (forall e, Client.get W probe = Raise e ->
     e <> ConnectError -> is_Exception e = true ->
     Main.agent_status (Client.get W) str20 name url
       = Return ("🟠 Error: " ++ str20 e ++ "...") /\
     Client.agent_status W agent url = "🔴 Offline")
  /\
  (forall e, Client.get W probe = Raise e ->
     is_Exception e = false ->
     Main.agent_status (Client.get W) str20 name url = Raise e /\
     Client.agent_status W agent url = "🔴 Offline").
Proof.
  intros Hn probe.
  unfold Main.agent_status, Client.agent_status. rewrite Hn.
  replace (if negb (String.eqb agent "supervisor")
           then url ++ "/health" else url ++ "/docs") with probe
    by (unfold probe; now destruct (String.eqb agent "supervisor")).
  fold probe.
  split; [| split; [| split]].
  - intros r ->. now destruct (status_code r =? 200).
  - intros ->. split; reflexivity.
  - intros e -> Hne He. split; [| reflexivity].
    destruct e; try (now elim Hne); try discriminate He; reflexivity.
  - intros e -> He. split; [| reflexivity].
    destruct e; try discriminate He; reflexivity.
Qed.

Lemma manager_and_client_status_witness :
  Main.agent_status
    (Client.get (Demo.world Spec.echo_delegate Demo.probe_delegates_up))
    (fun _ => "All connection attemp") "Supervisor" "http://localhost:8000"
  = Return "🔴 Offline"
  /\ Main.agent_status
       (Client.get (Demo.world Spec.echo_delegate
                      (fun _ => Raise TimeoutException)))
       (fun _ => "") "Cisco Intersight" "http://localhost:8002"
     = Return "🟠 Error: ..."
  /\ Main.agent_status
       (Client.get (Demo.world Spec.echo_delegate
                      (fun _ => Raise KeyboardInterrupt)))
       (fun _ => "") "Cisco Intersight" "http://localhost:8002"
     = Raise KeyboardInterrupt
  /\ Main.agent_status
       (Client.get (Demo.world Spec.echo_delegate Demo.probe_delegates_up))
       (fun _ => "") "Service Catalog" "http://localhost:8001"
     = Return "🟢 Online".
Proof.
  split; [| split; [| split]].
  - exact (proj1 (proj1 (proj2 (manager_and_client_status
             (Demo.world Spec.echo_delegate Demo.probe_delegates_up)
             (fun _ => "All connection attemp") "Supervisor" "supervisor"
             "http://localhost:8000" eq_refl)) eq_refl)).
  - refine (proj1 (proj1 (proj2 (proj2 (manager_and_client_status
             (Demo.world Spec.echo_delegate (fun _ => Raise TimeoutException))
             (fun _ => "") "Cisco Intersight" "cisco"
             "http://localhost:8002" eq_refl)))
           TimeoutException eq_refl _ eq_refl)). discriminate.
  - exact (proj1 (proj2 (proj2 (proj2 (manager_and_client_status
             (Demo.world Spec.echo_delegate (fun _ => Raise KeyboardInterrupt))
             (fun _ => "") "Cisco Intersight" "cisco"
             "http://localhost:8002" eq_refl)))
           KeyboardInterrupt eq_refl eq_refl)).
  - exact (proj1 (manager_and_client_status
             (Demo.world Spec.echo_delegate Demo.probe_delegates_up)
             (fun _ => "") "Service Catalog" "service-catalog"
             "http://localhost:8001" eq_refl)
           {| status_code := 200; body := None |} eq_refl).
Defined.
